(** * crm/schema.py: the GraphQL mutations of the CRM, embedded and verified

    The four mutations of [crm/schema.py] ([CreateCustomer],
    [BulkCreateCustomers], [CreateProduct], [CreateOrder]) are embedded as
    functions over an explicit store, in a monad of Python exceptions.

    Conventions of the embedding:
    - a Python [str] is a [string]; its characters are the code points
      below 256;
    - a raised exception is a value of [Exception]; [try]/[except] is a
      match on the outcome, and an exception raised inside a handler leaves
      the function as Python lets it;
    - the database is a [Store] threaded through every call;
      [transaction.atomic] restores the store when an exception leaves the
      decorated function, and only then;
    - the id of a lookup by key is a [str], which Django converts with
      [int]; the elements of a GraphQL list of input objects may be null. *)

From Stdlib Require Import String Ascii List ZArith QArith Qpower Lia Bool.
From Stdlib Require Import DecimalString DecimalNat Permutation.
Import ListNotations.

Close Scope Q_scope.
Local Open Scope list_scope.
Local Open Scope string_scope.

(** ** Python strings *)

Module Py.

(** [str.lower] on code points below 256: A-Z and the upper-case letters of
  Latin-1 (192..222 without the multiplication sign 215). *)
Definition lower_char (c : ascii) : ascii :=
let n := nat_of_ascii c in
if ((65 <=? n) && (n <=? 90))%nat
   || ((192 <=? n) && (n <=? 222) && negb (n =? 215))%nat
then ascii_of_nat (n + 32) else c.

Fixpoint lower (s : string) : string :=
match s with
| EmptyString => EmptyString
| String c r => String (lower_char c) (lower r)
end.

(** [needle in hay]. *)
Fixpoint contains (needle hay : string) : bool :=
String.prefix needle hay
|| match hay with
   | EmptyString => false
   | String _ r => contains needle r
   end.

Fixpoint mem_char (c : ascii) (s : string) : bool :=
match s with
| EmptyString => false
| String d r => Ascii.eqb c d || mem_char c r
end.

Fixpoint all_chars (p : ascii -> bool) (s : string) : bool :=
match s with
| EmptyString => true
| String c r => p c && all_chars p r
end.

(** Truth value of a [str]: the empty string is false. *)
Definition truthy (s : string) : bool :=
match s with EmptyString => false | String _ _ => true end.

Definition dquote : ascii := "034"%char.
Definition squote : ascii := "039"%char.
Definition backslash : ascii := "092"%char.

Definition hex_digit (n : nat) : ascii :=
nth n ["0"; "1"; "2"; "3"; "4"; "5"; "6"; "7";
       "8"; "9"; "a"; "b"; "c"; "d"; "e"; "f"]%char "0"%char.

(** The quote [repr] puts around a [str]: the double quote when the text has
  a single quote and no double quote, the single quote otherwise. *)
Definition repr_quote (s : string) : ascii :=
if mem_char squote s && negb (mem_char dquote s) then dquote else squote.

(** One character of [repr(str)]: the quote and the backslash are escaped,
  tab, newline and carriage return have their letters, the characters
  that are not printable (controls, 127, 128..160, 173) are written in
  hexadecimal. *)
Definition repr_char (q c : ascii) : string :=
let n := nat_of_ascii c in
if Ascii.eqb c q || Ascii.eqb c backslash
then String backslash (String c EmptyString)
else if (n =? 9)%nat then String backslash "t"
else if (n =? 10)%nat then String backslash "n"
else if (n =? 13)%nat then String backslash "r"
else if ((n <? 32) || (n =? 127) || ((128 <=? n) && (n <=? 160)) || (n =? 173))%nat
then String backslash
       (String "x" (String (hex_digit (n / 16)) (String (hex_digit (n mod 16)) EmptyString)))
else String c EmptyString.

Fixpoint repr_body (q : ascii) (s : string) : string :=
match s with
| EmptyString => EmptyString
| String c r => repr_char q c ++ repr_body q r
end.

Definition repr_str (s : string) : string :=
let q := repr_quote s in
String q (repr_body q s ++ String q EmptyString).

Fixpoint join (sep : string) (l : list string) : string :=
match l with
| [] => EmptyString
| [x] => x
| x :: r => x ++ sep ++ join sep r
end.

(** [repr] of a list of [str]. *)
Definition repr_list (l : list string) : string :=
"[" ++ join ", " (map repr_str l) ++ "]".

(** [repr] of a dict from [str] to lists of [str], in insertion order. *)
Definition repr_dict (d : list (string * list string)) : string :=
"{" ++ join ", " (map (fun kv => repr_str (fst kv) ++ ": " ++ repr_list (snd kv)) d) ++ "}".

(** [str(n)] for a natural number. *)
Definition str_of_nat (n : nat) : string :=
NilEmpty.string_of_uint (Nat.to_uint n).

End Py.

(** ** Regular expressions, as [re.match] runs them

    A backtracking matcher in continuation style for the constructs the
    phone pattern uses.  [re.match] anchors at the start of the text and
    does not ask the match to reach its end. *)

Module Re.

Inductive pattern : Type :=
| Class (p : ascii -> bool)       (* one character of a class *)
| Optional (r : pattern)          (* r? , greedy *)
| Times (n : nat) (r : pattern)   (* r{n} *)
| Seq (r1 r2 : pattern)
| Caret                           (* ^ *)
| Dollar.                         (* $ : at the end, or before a final newline *)

Definition newline : ascii := "010"%char.

Definition at_dollar (s : string) : bool :=
match s with
| EmptyString => true
| String c EmptyString => Ascii.eqb c newline
| _ => false
end.

(** [run r at_start s k]: [r] matches a prefix of [s] and [k] accepts the
  rest.  [at_start] tells whether [s] is the whole text. *)
Fixpoint run (r : pattern) (s : string) (start : bool)
       (k : string -> bool -> bool) {struct r} : bool :=
match r with
| Class p =>
    match s with
    | EmptyString => false
    | String c t => p c && k t false
    end
| Optional r' => run r' s start k || k s start
| Times n r' =>
    (fix times (n : nat) (s : string) (start : bool) : bool :=
       match n with
       | O => k s start
       | S n' => run r' s start (fun t st => times n' t st)
       end) n s start
| Seq r1 r2 => run r1 s start (fun t st => run r2 t st k)
| Caret => start && k s start
| Dollar => at_dollar s && k s start
end.

Definition rmatch (r : pattern) (s : string) : bool :=
run r s true (fun _ _ => true).

(** [\d] on a [str] pattern: the decimal digits; below 256 these are 0-9. *)
Definition digit (c : ascii) : bool :=
let n := nat_of_ascii c in ((48 <=? n) && (n <=? 57))%nat.

(** [\s] on a [str] pattern: the Unicode white space; below 256 these are
  9..13, 28..32, 133 and 160. *)
Definition space (c : ascii) : bool :=
let n := nat_of_ascii c in
(((9 <=? n) && (n <=? 13)) || ((28 <=? n) && (n <=? 32)) || (n =? 133) || (n =? 160))%nat.

Definition lit (a : ascii) : pattern := Class (Ascii.eqb a).

End Re.

(** The pattern of both customer mutations:
    [^\+?\d{3}[-.\s]?\d{3}[-.\s]?\d{4}$]. *)
Definition phone_sep (c : ascii) : bool :=
  Ascii.eqb c "-" || Ascii.eqb c "." || Re.space c.

Definition phone_regex : Re.pattern :=
  Re.Seq Re.Caret
    (Re.Seq (Re.Optional (Re.lit "+"))
       (Re.Seq (Re.Times 3 (Re.Class Re.digit))
          (Re.Seq (Re.Optional (Re.Class phone_sep))
             (Re.Seq (Re.Times 3 (Re.Class Re.digit))
                (Re.Seq (Re.Optional (Re.Class phone_sep))
                   (Re.Seq (Re.Times 4 (Re.Class Re.digit)) Re.Dollar)))))).

(** ** Integers from text *)

Module PyInt.

(** White space at the left end. *)
Fixpoint lstrip (s : string) : string :=
  match s with
  | EmptyString => EmptyString
  | String c r => if Re.space c then lstrip r else s
  end.

(** White space at the right end. *)
Fixpoint rstrip (s : string) : string :=
  match s with
  | EmptyString => EmptyString
  | String c r =>
      match rstrip r with
      | EmptyString => if Re.space c then EmptyString else String c EmptyString
      | t => String c t
      end
  end.

(** The digits of a text in which single underscores may stand between
    digits; [after_digit] tells whether the character before was a digit. *)
Fixpoint ungroup (s : string) (after_digit : bool) : option string :=
  match s with
  | EmptyString => if after_digit then Some EmptyString else None
  | String c r =>
      if Re.digit c then option_map (String c) (ungroup r true)
      else if Ascii.eqb c "_" && after_digit then ungroup r false
      else None
  end.

Definition magnitude (body : string) : option nat :=
  match ungroup body false with
  | Some digits => option_map Nat.of_uint (NilEmpty.uint_of_string digits)
  | None => None
  end.

(** [int(s)] for a [str], in base ten: white space is stripped at both
    ends, a sign may come first, and the digits, at least one, may be
    grouped by single underscores.  [None] is the [ValueError].  (The
    limit some versions of Python put on the number of digits is not
    modelled; the theorems that need it bound the length of the text.) *)
Definition int (s : string) : option Z :=
  match rstrip (lstrip s) with
  | EmptyString => None
  | String c r =>
      if Ascii.eqb c "+" then option_map Z.of_nat (magnitude r)
      else if Ascii.eqb c "-" then option_map (fun n => (- Z.of_nat n)%Z) (magnitude r)
      else option_map Z.of_nat (magnitude (String c r))
  end.

End PyInt.

(** ** Exceptions and the monad of the mutations *)

(** The exceptions the mutations meet.  Django's [ValidationError] comes in
    two shapes: built from one message (it has no [error_dict]) and built
    from a dict of field errors (it has one). *)
Inductive Exception : Type :=
  | ValidationError (message : string)
  | ValidationErrorDict (error_dict : list (string * list string))
  | DoesNotExist (message : string)
  | IntegrityError (message : string)
  | AttributeError (message : string)
  | TypeError (message : string)
  | IndexError (message : string)
  | ValueError (message : string).

Inductive Result (A : Type) : Type :=
  | Ok (a : A)
  | Raise (e : Exception).

Arguments Ok {A} a.
Arguments Raise {A} e.

(** [isinstance(e, ValidationError)]. *)
Definition is_ValidationError (e : Exception) : bool :=
  match e with
  | ValidationError _ | ValidationErrorDict _ => true
  | _ => false
  end.

(** [str(e)]: a [ValidationError] prints the [repr] of its message list or
    of its dict, the others print their message. *)
Definition Exception_str (e : Exception) : string :=
  match e with
  | ValidationError m => Py.repr_list [m]
  | ValidationErrorDict d => Py.repr_dict d
  | DoesNotExist m | IntegrityError m | AttributeError m
  | TypeError m | IndexError m | ValueError m => m
  end.

(** The property [ValidationError.message_dict]: it reads [error_dict], so
    on an error built from one message it raises [AttributeError]. *)
Definition message_dict (e : Exception) : Result (list (string * list string)) :=
  match e with
  | ValidationErrorDict d => Ok d
  | _ => Raise (AttributeError "'ValidationError' object has no attribute 'error_dict'")
  end.

(** [l[0]]. *)
Definition first {A : Type} (l : list A) : Result A :=
  match l with
  | x :: _ => Ok x
  | [] => Raise (IndexError "list index out of range")
  end.

(** ** Data model *)

(** A finite [decimal.Decimal]: the value is [coefficient * 10 ^ exponent].
    The special values (NaN, infinities) are not modelled. *)
Record Decimal : Type := mkDecimal { coefficient : Z; exponent : Z }.

Definition Decimal_zero : Decimal := mkDecimal 0 0.

Definition Decimal_value (d : Decimal) : Q :=
  (inject_Z (coefficient d) * Qpower (inject_Z 10) (exponent d))%Q.

(** [float(d) <= 0].  The conversion rounds to the nearest double, ties to
    even; the least positive double is [2 ^ -1074], so the result is zero
    or negative exactly when [d <= 2 ^ -1075]. *)
Definition float_le_zero (d : Decimal) : bool :=
  if (0 <=? exponent d)%Z
  then (coefficient d * 10 ^ exponent d * 2 ^ 1075 <=? 1)%Z
  else (coefficient d * 2 ^ 1075 <=? 10 ^ (- exponent d))%Z.

(** [a + b] on decimals: the coefficients are added at the smaller
    exponent (the rounding to the context's 28 digits is not modelled). *)
Definition Decimal_add (a b : Decimal) : Decimal :=
  let e := Z.min (exponent a) (exponent b) in
  mkDecimal (coefficient a * 10 ^ (exponent a - e) + coefficient b * 10 ^ (exponent b - e))%Z e.

(** [sum(l)], which starts from 0. *)
Definition Decimal_sum (l : list Decimal) : Decimal :=
  fold_left Decimal_add l Decimal_zero.

(** Modelled from the spec: [crm/models.py] is not among the sources.  The
    rows follow section 3 of the specification: a Customer has a name, a
    unique email and an optional phone; a Product has a name, a price and a
    stock; an Order references one customer and a set of products and
    carries the derived [total_amount].  A primary key is a number given by
    the table's sequence; an instance that was not saved has none. *)
Record Customer : Type := mkCustomer {
  customer_pk : option nat;
  customer_name : string;
  customer_email : string;
  customer_phone : string
}.

Record Product : Type := mkProduct {
  product_pk : option nat;
  product_name : string;
  product_price : Decimal;
  product_stock : Z
}.

Record Order : Type := mkOrder {
  order_pk : option nat;
  order_customer : option nat;       (* the customer's primary key *)
  order_products : list nat;         (* the linked products' primary keys *)
  order_total_amount : Decimal
}.

(** The database: three tables in insertion order and their sequences. *)
Record Store : Type := mkStore {
  customers : list Customer;
  products : list Product;
  orders : list Order;
  customer_seq : nat;
  product_seq : nat;
  order_seq : nat
}.

(** A computation on the store that returns or raises.  The store survives
    a raise: what was written before it stays written unless a transaction
    undoes it. *)
Definition M (A : Type) : Type := Store -> Result A * Store.

Definition ret {A : Type} (a : A) : M A := fun st => (Ok a, st).

Definition raise {A : Type} (e : Exception) : M A := fun st => (Raise e, st).

Definition bind {A B : Type} (m : M A) (k : A -> M B) : M B :=
  fun st =>
    match m st with
    | (Ok a, st') => k a st'
    | (Raise e, st') => (Raise e, st')
    end.

Definition lift {A : Type} (r : Result A) : M A := fun st => (r, st).

Notation "x <- m ;; k" := (bind m (fun x => k))
  (at level 61, m at next level, right associativity).

Notation "m ;;; k" := (bind m (fun _ => k))
  (at level 61, right associativity).

(** [try: body except Exception as e: handler e]. *)
Definition try_except {A : Type} (body : M A) (handler : Exception -> M A) : M A :=
  fun st =>
    match body st with
    | (Ok a, st') => (Ok a, st')
    | (Raise e, st') => handler e st'
    end.

(** [@transaction.atomic]: commit when the function returns, roll back
    when an exception leaves it. *)
Definition atomic {A : Type} (m : M A) : M A :=
  fun st =>
    match m st with
    | (Ok a, st') => (Ok a, st')
    | (Raise e, _) => (Raise e, st)
    end.

(** [when c e]: [if c: raise e]. *)
Definition raise_if (c : bool) (e : Exception) : M unit :=
  if c then raise e else ret tt.

(** ** The models *)

(** Modelled from the spec: the keys of the absent [crm/models.py] are the
    numbers of the tables' sequences, and Django converts the id of a
    lookup with [int]: an id matches a key when it denotes the key's
    number, whatever its spelling ([01], [+1] and [1] match the key 1). *)
Definition pk_matches (pk : option nat) (id : string) : bool :=
  match pk, PyInt.int id with
  | Some n, Some z => (z =? Z.of_nat n)%Z
  | _, _ => false
  end.

(** Modelled from the spec: the error of a lookup whose id is not a
    number; Django raises the [ValueError] of [int] with its own text. *)
Definition not_a_number (id : string) : Exception :=
  ValueError ("Field 'id' expected a number but got " ++ Py.repr_str id ++ ".").

Definition has_email (email : string) (c : Customer) : bool :=
  String.eqb (customer_email c) email.

(** Modelled from the spec: the lookup by key behind
    [Customer.objects.get] of the absent [crm/models.py]; an id resolves to
    the stored row whose key is the number the id denotes. *)
Definition find_customer (st : Store) (id : string) : option Customer :=
  find (fun c => pk_matches (customer_pk c) id) (customers st).

(** Modelled from the spec: [Customer.objects.get(pk=id)] of the absent
    [crm/models.py]; an id that is not a number raises [ValueError], a
    number resolves to the stored row with that key or raises
    [Customer.DoesNotExist]. *)
Definition Customer_objects_get (id : string) : M Customer :=
  fun st =>
    match PyInt.int id with
    | None => (Raise (not_a_number id), st)
    | Some _ =>
        match find_customer st id with
        | Some c => (Ok c, st)
        | None => (Raise (DoesNotExist "Customer matching query does not exist."), st)
        end
    end.

(** Modelled from the spec: [Customer.full_clean()] of the absent
    [crm/models.py]; the one constraint the specification gives the model
    is the uniqueness of the email, which Django's [full_clean] checks
    against the table and reports as a dict of field errors. *)
Definition Customer_full_clean (c : Customer) : M unit :=
  fun st =>
    if existsb (has_email (customer_email c)) (customers st)
    then (Raise (ValidationErrorDict
                   [("email", ["Customer with this Email already exists."])]), st)
    else (Ok tt, st).

(** Modelled from the spec: [Customer.save()] of the absent
    [crm/models.py]; the row is inserted under the next key, and the
    table's unique index on the email refuses a second row with it. *)
Definition Customer_save (c : Customer) : M Customer :=
  fun st =>
    if existsb (has_email (customer_email c)) (customers st)
    then (Raise (IntegrityError "UNIQUE constraint failed: crm_customer.email"), st)
    else
      let pk := S (customer_seq st) in
      let c' := mkCustomer (Some pk) (customer_name c) (customer_email c) (customer_phone c) in
      (Ok c', mkStore (customers st ++ [c']) (products st) (orders st)
                      pk (product_seq st) (order_seq st)).

(** Modelled from the spec: the lookup by key behind
    [Product.objects.get] of the absent [crm/models.py], as for customers. *)
Definition find_product (st : Store) (id : string) : option Product :=
  find (fun p => pk_matches (product_pk p) id) (products st).

(** Modelled from the spec: [Product.objects.get(pk=id)] of the absent
    [crm/models.py]; as for customers, it raises [ValueError] on an id that
    is not a number, and returns the row or raises [Product.DoesNotExist]
    on a number. *)
Definition Product_objects_get (id : string) : M Product :=
  fun st =>
    match PyInt.int id with
    | None => (Raise (not_a_number id), st)
    | Some _ =>
        match find_product st id with
        | Some p => (Ok p, st)
        | None => (Raise (DoesNotExist "Product matching query does not exist."), st)
        end
    end.

(** Modelled from the spec: [Product.full_clean()] of the absent
    [crm/models.py]; the invariants of section 3 are a price above zero and
    a stock of at least zero. *)
Definition Product_full_clean (p : Product) : M unit :=
  fun st =>
    if (coefficient (product_price p) <=? 0)%Z
    then (Raise (ValidationErrorDict
                   [("price", ["Ensure this value is greater than 0."])]), st)
    else if (product_stock p <? 0)%Z
    then (Raise (ValidationErrorDict
                   [("stock", ["Ensure this value is greater than or equal to 0."])]), st)
    else (Ok tt, st).

(** Modelled from the spec: [Product.save()] of the absent
    [crm/models.py]; the row is inserted under the next key. *)
Definition Product_save (p : Product) : M Product :=
  fun st =>
    let pk := S (product_seq st) in
    let p' := mkProduct (Some pk) (product_name p) (product_price p) (product_stock p) in
    (Ok p', mkStore (customers st) (products st ++ [p']) (orders st)
                    (customer_seq st) pk (order_seq st)).

Definition same_order (pk : option nat) (o : Order) : bool :=
  match pk, order_pk o with
  | Some n, Some m => Nat.eqb n m
  | _, _ => false
  end.

(** Writes the row of an order that is in the table. *)
Definition update_order (o : Order) (st : Store) : Store :=
  mkStore (customers st) (products st)
          (map (fun r => if same_order (order_pk o) r then o else r) (orders st))
          (customer_seq st) (product_seq st) (order_seq st).

(** The prices, as stored now, of the products with the given keys. *)
Definition linked_prices (st : Store) (pks : list nat) : list Decimal :=
  flat_map
    (fun pk =>
       match find (fun p => match product_pk p with
                            | Some n => Nat.eqb n pk
                            | None => false
                            end) (products st) with
       | Some p => [product_price p]
       | None => []
       end) pks.

(** Modelled from the spec: [Order.save()] of the absent [crm/models.py];
    by section 3 [total_amount] is derived as the sum of the prices of the
    linked products at save time. *)
Definition Order_save (o : Order) : M Order :=
  fun st =>
    let o' := mkOrder (order_pk o) (order_customer o) (order_products o)
                      (Decimal_sum (linked_prices st (order_products o))) in
    (Ok o', update_order o' st).

(** Modelled from the spec: [Order.objects.create(customer=c)] of the absent
    [crm/models.py]; a row with no product is inserted under the next key
    and saved. *)
Definition Order_objects_create (c : Customer) : M Order :=
  fun st =>
    let pk := S (order_seq st) in
    let o := mkOrder (Some pk) (customer_pk c) [] (Decimal_sum (linked_prices st [])) in
    (Ok o, mkStore (customers st) (products st) (orders st ++ [o])
                   (customer_seq st) (product_seq st) pk).

Definition product_keys (ps : list Product) : list nat :=
  flat_map (fun p => match product_pk p with Some n => [n] | None => [] end) ps.

(** Modelled from the spec: [order.products.set(ps)] of the absent
    [crm/models.py]; the order's links become the set of the given
    products, each linked once. *)
Definition Order_products_set (o : Order) (ps : list Product) : M Order :=
  fun st =>
    let o' := mkOrder (order_pk o) (order_customer o)
                      (nodup Nat.eq_dec (product_keys ps)) (order_total_amount o) in
    (Ok o', update_order o' st).

(** ** Input and error types *)

Module CustomerInput.
Record t : Type := make { name : string; email : string; phone : option string }.
End CustomerInput.

Module ProductInput.
Record t : Type := make { name : string; price : Decimal; stock : option Z }.
End ProductInput.

Module OrderInput.
Record t : Type := make {
  customer_id : string;
  product_ids : list string;
  order_date : option string
}.
End OrderInput.

Module ErrorType.
Record t : Type := make { field : string; messages : list string }.

(** The constructor graphene gives an [ObjectType]: the keyword arguments
    are its fields, and any other keyword is refused with a [TypeError]
    (the wording of the message depends on the graphene version).
    [others] lists the keywords of a call that are not fields. *)
Definition init (field : string) (messages : list string) (others : list string)
  : Result t :=
  match others with
  | [] => Ok (make field messages)
  | k :: _ =>
      Raise (TypeError ("ErrorType.__init__() got an unexpected keyword argument '"
                          ++ k ++ "'"))
  end.
End ErrorType.

(** [x or default] and the truth value of an optional [str] or [int]. *)
Definition phone_truthy (phone : option string) : bool :=
  match phone with
  | Some p => Py.truthy p
  | None => false
  end.

Definition phone_or_empty (phone : option string) : string :=
  match phone with
  | Some p => p
  | None => EmptyString
  end.

Definition stock_truthy (stock : option Z) : bool :=
  match stock with
  | Some n => negb (n =? 0)%Z
  | None => false
  end.

Definition stock_or_zero (stock : option Z) : Z :=
  match stock with
  | Some n => n
  | None => 0%Z
  end.

(** [django.core.validators.validate_email].  The validator first refuses
    the empty text and the text without [@]; what follows (the patterns of
    the user part and of the domain) is the library's own and enters as the
    parameter [email_grammar].  Every refusal raises a [ValidationError]
    built from one message. *)
Definition email_ok (email_grammar : string -> bool) (value : string) : bool :=
  Py.truthy value && Py.mem_char "@" value && email_grammar value.

Definition validate_email (email_grammar : string -> bool) (value : string) : M unit :=
  raise_if (negb (email_ok email_grammar value))
           (ValidationError "Enter a valid email address.").

(** The phone check of both customer mutations (lines 63-66, 119-122). *)
Definition phone_refused (phone : option string) : bool :=
  phone_truthy phone && negb (Re.rmatch phone_regex (phone_or_empty phone)).

Definition check_phone (message : string) (phone : option string) : M unit :=
  raise_if (phone_refused phone) (ValidationError message).

(** ** CreateCustomer *)

Module CreateCustomer.

Record t : Type := make {
  customer : option Customer;
  errors : option ErrorType.t;
  success : option bool
}.

(** The [try] block, lines 62-79. *)
Definition body (email_grammar : string -> bool) (input : CustomerInput.t) : M t :=
  check_phone "Phone number must be in format: '+1234567890' or '123-456-7890'"
              (CustomerInput.phone input) ;;;
  validate_email email_grammar (CustomerInput.email input) ;;;
  let customer := mkCustomer None (CustomerInput.name input) (CustomerInput.email input)
                             (phone_or_empty (CustomerInput.phone input)) in
  Customer_full_clean customer ;;;
  customer <- Customer_save customer ;;
  ret (make (Some customer) None (Some true)).

(** The three handlers, lines 81-99.  The first builds its [ErrorType]
    from [e.message_dict] and passes it [success=False]. *)
Definition handler (e : Exception) : M t :=
  if is_ValidationError e then
    d <- lift (message_dict e) ;;
    field <- lift (first (map fst d)) ;;
    d' <- lift (message_dict e) ;;
    messages <- lift (first (map snd d')) ;;
    errors <- lift (ErrorType.init field messages ["success"]) ;;
    ret (make None (Some errors) None)
  else
    match e with
    | IntegrityError _ =>
        errors <- lift (ErrorType.init "email" ["Email already exists"] []) ;;
        ret (make None (Some errors) (Some false))
    | _ =>
        errors <- lift (ErrorType.init "non_field_errors" [Exception_str e] []) ;;
        ret (make None (Some errors) (Some false))
    end.

Definition mutate (email_grammar : string -> bool) (input : CustomerInput.t) : M t :=
  try_except (body email_grammar input) handler.

End CreateCustomer.

(** ** BulkCreateCustomers *)

Module BulkCreateCustomers.

Record t : Type := make {
  customers : list Customer;
  errors : list ErrorType.t;
  success : bool
}.

(** The three accumulators of the loop. *)
Definition acc : Type := (list Customer * list ErrorType.t * bool)%type.

(** The [try] block of one row, lines 118-133. *)
Definition row (email_grammar : string -> bool) (input : CustomerInput.t) : M Customer :=
  check_phone "Invalid phone format" (CustomerInput.phone input) ;;;
  validate_email email_grammar (CustomerInput.email input) ;;;
  let customer := mkCustomer None (CustomerInput.name input) (CustomerInput.email input)
                             (phone_or_empty (CustomerInput.phone input)) in
  Customer_full_clean customer ;;;
  Customer_save customer.

Definition error_field (e : Exception) : string :=
  if Py.contains "email" (Py.lower (Exception_str e)) then "email"
  else if Py.contains "phone" (Py.lower (Exception_str e)) then "phone"
  else "row".

(** [error_msg], lines 137-139. *)
Definition error_msg (e : Exception) : M string :=
  if is_ValidationError e then
    d <- lift (message_dict e) ;;
    l <- lift (first (map snd d)) ;;
    lift (first l)
  else ret (Exception_str e).

(** The handler of one row, lines 135-147. *)
Definition handler (idx : nat) (a : acc) (e : Exception) : M acc :=
  let '(customers, errors, _) := a in
  msg <- error_msg e ;;
  ret (customers,
       errors ++ [ErrorType.make (error_field e ++ " (row " ++ Py.str_of_nat (idx + 1) ++ ")")
                                 [msg]],
       false)%list.

(** The [try] block on an element of the list.  The elements of
    [graphene.List(CustomerInput)] may be null, and on [None] the first
    attribute read, [input.phone] of line 119, raises. *)
Definition attempt (email_grammar : string -> bool) (input : option CustomerInput.t)
  : M Customer :=
  match input with
  | Some input => row email_grammar input
  | None => raise (AttributeError "'NoneType' object has no attribute 'phone'")
  end.

(** The loop over [enumerate(inputs)], from index [idx]. *)
Fixpoint loop (email_grammar : string -> bool) (idx : nat)
         (inputs : list (option CustomerInput.t)) (a : acc) : M acc :=
  match inputs with
  | [] => ret a
  | input :: rest =>
      a' <- try_except
              (customer <- attempt email_grammar input ;;
               let '(customers, errors, success) := a in
               ret (customers ++ [customer], errors, success)%list)
              (handler idx a) ;;
      loop email_grammar (S idx) rest a'
  end.

Definition mutate (email_grammar : string -> bool) (inputs : list (option CustomerInput.t))
  : M t :=
  atomic
    (a <- loop email_grammar 0 inputs ([], [], true) ;;
     let '(customers, errors, success) := a in
     ret (make customers errors success)).

End BulkCreateCustomers.

(** ** CreateProduct *)

Module CreateProduct.

Record t : Type := make {
  product : option Product;
  errors : option ErrorType.t;
  success : option bool
}.

(** The [try] block, lines 166-180. *)
Definition body (input : ProductInput.t) : M t :=
  raise_if (float_le_zero (ProductInput.price input))
           (ValidationError "Price must be positive") ;;;
  raise_if (stock_truthy (ProductInput.stock input)
            && (stock_or_zero (ProductInput.stock input) <? 0)%Z)
           (ValidationError "Stock cannot be negative") ;;;
  let product := mkProduct None (ProductInput.name input) (ProductInput.price input)
                           (stock_or_zero (ProductInput.stock input)) in
  Product_full_clean product ;;;
  product <- Product_save product ;;
  ret (make (Some product) None (Some true)).

Definition error_field (e : Exception) : string :=
  if Py.contains "price" (Py.lower (Exception_str e)) then "price"
  else if Py.contains "stock" (Py.lower (Exception_str e)) then "stock"
  else "non_field_errors".

(** The handler, lines 182-189. *)
Definition handler (e : Exception) : M t :=
  errors <- lift (ErrorType.init (error_field e) [Exception_str e] []) ;;
  ret (make None (Some errors) (Some false)).

Definition mutate (input : ProductInput.t) : M t :=
  try_except (body input) handler.

End CreateProduct.

(** The three writes of lines 222-224: [Order.objects.create],
    [order.products.set] and [order.save].  They belong to the absent
    [crm/models.py]; the mutation is embedded over any three operations,
    which may raise, and is run on the modelled ones.  A raise of a write
    stands for an exception of the model's own code (an overridden [save],
    a signal receiver); an error inside a database operation, which marks
    the transaction for rollback, is not modelled. *)
Record OrderWrites : Type := mkWrites {
  writes_create : Customer -> M Order;
  writes_set : Order -> list Product -> M Order;
  writes_save : Order -> M Order
}.

Definition model_writes : OrderWrites :=
  mkWrites Order_objects_create Order_products_set Order_save.

(** ** CreateOrder *)

Module CreateOrder.

Record t : Type := make {
  order : option Order;
  errors : option ErrorType.t;
  success : option bool
}.

(** Lines 204-207. *)
Definition get_customer (id : string) : M Customer :=
  try_except (Customer_objects_get id)
    (fun e => match e with
              | DoesNotExist _ => raise (ValidationError "Customer does not exist")
              | _ => raise e
              end).

(** Lines 212-216, for one id. *)
Definition get_product (product_id : string) : M Product :=
  try_except (Product_objects_get product_id)
    (fun e => match e with
              | DoesNotExist _ =>
                  raise (ValidationError
                           ("Product with ID " ++ product_id ++ " does not exist"))
              | _ => raise e
              end).

(** The loop of lines 210-216: [products] holds what was resolved so far. *)
Fixpoint get_products (ids : list string) (products : list Product) : M (list Product) :=
  match ids with
  | [] => ret products
  | product_id :: rest =>
      product <- get_product product_id ;;
      get_products rest (products ++ [product])%list
  end.

(** The [try] block, lines 203-226, over the three writes.  [order_date]
    is not read. *)
Definition body_with (w : OrderWrites) (input : OrderInput.t) : M t :=
  customer <- get_customer (OrderInput.customer_id input) ;;
  products <- get_products (OrderInput.product_ids input) [] ;;
  raise_if (match products with [] => true | _ => false end)
           (ValidationError "At least one product must be specified") ;;;
  order <- writes_create w customer ;;
  order <- writes_set w order products ;;
  order <- writes_save w order ;;
  ret (make (Some order) None (Some true)).

Definition body (input : OrderInput.t) : M t := body_with model_writes input.

Definition error_field (e : Exception) : string :=
  if Py.contains "customer" (Py.lower (Exception_str e)) then "customer_id"
  else if Py.contains "product" (Py.lower (Exception_str e)) then "product_ids"
  else "non_field_errors".

(** The handler, lines 228-235. *)
Definition handler (e : Exception) : M t :=
  errors <- lift (ErrorType.init (error_field e) [Exception_str e] []) ;;
  ret (make None (Some errors) (Some false)).

(** The decorated function over the three writes: the handler returns,
    so the transaction never sees an exception. *)
Definition mutate_with (w : OrderWrites) (input : OrderInput.t) : M t :=
  atomic (try_except (body_with w input) handler).

Definition mutate (input : OrderInput.t) : M t := mutate_with model_writes input.

End CreateOrder.

(** ** A grammar to run the customer mutations on

    The plain branch of the patterns of Django's [EmailValidator]: a user
    part made of atoms separated by dots, and a domain that is [localhost]
    or a dotted host name.  (The quoted user part, the bracketed address
    and the internationalised names are the branches left out.)  The
    theorems hold for any grammar; this one instantiates them. *)

Module EmailGrammar.

Fixpoint split (sep : ascii) (s : string) : list string :=
  match s with
  | EmptyString => [EmptyString]
  | String c r =>
      if Ascii.eqb c sep then EmptyString :: split sep r
      else match split sep r with
           | x :: l => String c x :: l
           | [] => [String c EmptyString]
           end
  end.

Definition letter (c : ascii) : bool :=
  let n := nat_of_ascii c in
  (((65 <=? n) && (n <=? 90)) || ((97 <=? n) && (n <=? 122)))%nat.

Definition alnum (c : ascii) : bool := letter c || Re.digit c.

Definition atom_char (c : ascii) : bool :=
  alnum c || Py.mem_char c "-!#$%&'*+/=?^_`{}|~".

Definition host_char (c : ascii) : bool := alnum c || Ascii.eqb c "-".

Fixpoint last_char (s : string) : option ascii :=
  match s with
  | EmptyString => None
  | String c EmptyString => Some c
  | String _ r => last_char r
  end.

Definition holds (p : ascii -> bool) (c : option ascii) : bool :=
  match c with Some a => p a | None => false end.

Definition atom (s : string) : bool := Py.truthy s && Py.all_chars atom_char s.

Definition label (s : string) : bool :=
  (String.length s <=? 63)%nat && Py.all_chars host_char s
  && holds alnum (String.get 0 s) && holds alnum (last_char s).

Definition top_label (s : string) : bool :=
  (2 <=? String.length s)%nat && (String.length s <=? 63)%nat && Py.all_chars host_char s
  && holds (fun c => negb (Ascii.eqb c "-")) (last_char s).

Definition host (s : string) : bool :=
  match rev (split "." s) with
  | top :: (l :: _) as labels => top_label top && forallb label labels
  | _ => false
  end.

Definition dot_atom_host (value : string) : bool :=
  match split "@" value with
  | [user; domain] =>
      forallb atom (split "." user) && (String.eqb domain "localhost" || host domain)
  | _ => false
  end.

End EmailGrammar.

(** ** The words of the specification *)

(** The phone format as section 4.1 words it: an optional [+], then groups
    of three, three and four digits, each pair of groups separated by
    nothing, [-], [.] or a space. *)
Definition spec_digits (n : nat) (s : string) : Prop :=
  String.length s = n /\ Py.all_chars Re.digit s = true.

Definition spec_separator (s : string) : Prop :=
  s = EmptyString \/ s = "-" \/ s = "." \/ s = " ".

Definition spec_phone (p : string) : Prop :=
  exists plus a s1 b s2 c,
    p = plus ++ a ++ s1 ++ b ++ s2 ++ c
    /\ (plus = EmptyString \/ plus = "+")
    /\ spec_digits 3 a /\ spec_separator s1
    /\ spec_digits 3 b /\ spec_separator s2
    /\ spec_digits 4 c.

(** The exact sum of a list of rationals. *)
Definition Qsum (l : list Q) : Q := fold_right Qplus 0%Q l.

(** The number of stored customers with a given email. *)
Definition count_email (email : string) (st : Store) : nat :=
  List.length (filter (has_email email) (customers st)).

(** ** Names for the outcomes the theorems speak of *)

(** The customer [Customer.save] stores for an input, and the store after. *)
Definition new_customer (input : CustomerInput.t) (st : Store) : Customer :=
  mkCustomer (Some (S (customer_seq st))) (CustomerInput.name input)
             (CustomerInput.email input) (phone_or_empty (CustomerInput.phone input)).

Definition with_customer (c : Customer) (st : Store) : Store :=
  mkStore (customers st ++ [c]) (products st) (orders st)
          (S (customer_seq st)) (product_seq st) (order_seq st).

Definition duplicate_email : Exception :=
  ValidationErrorDict [("email", ["Customer with this Email already exists."])].

Definition no_error_dict : Exception :=
  AttributeError "'ValidationError' object has no attribute 'error_dict'".

Definition unexpected_success : Exception :=
  TypeError "ErrorType.__init__() got an unexpected keyword argument 'success'".

(** A row that one of the two checks of the source refuses. *)
Definition row_refused (email_grammar : string -> bool) (input : CustomerInput.t) : bool :=
  phone_refused (CustomerInput.phone input)
  || negb (email_ok email_grammar (CustomerInput.email input)).

(** The envelope of a failed [createProduct] and of a failed [createOrder]. *)
Definition product_failure (field message : string) : CreateProduct.t :=
  CreateProduct.make None (Some (ErrorType.make field [message])) (Some false).

Definition order_failure (field message : string) : CreateOrder.t :=
  CreateOrder.make None (Some (ErrorType.make field [message])) (Some false).

(** The error of line 216 for a product id. *)
Definition product_missing (product_id : string) : Exception :=
  ValidationError ("Product with ID " ++ product_id ++ " does not exist").

(** The order a successful [createOrder] returns for a customer and the
    products its ids resolved to. *)
Definition placed_order (c : Customer) (ps : list Product) (st : Store) : Order :=
  mkOrder (Some (S (order_seq st))) (customer_pk c)
          (nodup Nat.eq_dec (product_keys ps))
          (Decimal_sum (linked_prices st (nodup Nat.eq_dec (product_keys ps)))).

(** An id that resolves to a stored product. *)
Definition resolves (st : Store) (id : string) : Prop :=
  find_product st id <> None.

(** The field the handler of [createOrder] gives the error of a missing
    product: its first test looks for [customer] in the text. *)
Definition missing_field (p : string) : string :=
  if Py.contains "customer" (Py.lower (Exception_str (product_missing p)))
  then "customer_id" else "product_ids".

(** ** Stores and inputs of the examples *)

Definition empty_store : Store := mkStore [] [] [] 0 0 0.

Definition alice : CustomerInput.t :=
  CustomerInput.make "Alice" "alice@example.com" (Some "123-456-7890").

Definition bob_bad_email : CustomerInput.t :=
  CustomerInput.make "Bob" "not-an-email" None.

Definition carol : CustomerInput.t :=
  CustomerInput.make "Carol" "carol@example.com" (Some "+1234567890").

Definition dave_bad_phone : CustomerInput.t :=
  CustomerInput.make "Dave" "dave@example.com" (Some "12345").

(** One customer, and two products priced 10.00 and 15.50. *)
Definition shop : Store :=
  mkStore [mkCustomer (Some 1) "Alice" "alice@example.com" "123-456-7890"]
          [mkProduct (Some 1) "Laptop" (mkDecimal 1000 (-2)) 5;
           mkProduct (Some 2) "Mouse" (mkDecimal 1550 (-2)) 7]
          [] 1 2 0.

(** ** Queries *)

Module Query.

(** Modelled from the spec: [Customer.objects.all()] of the absent
    [crm/models.py]; the rows of the table, lines 274-275. *)
Definition resolve_customers (st : Store) : list Customer := customers st.

(** Modelled from the spec: [Product.objects.all()], lines 277-278. *)
Definition resolve_products (st : Store) : list Product := products st.

(** Modelled from the spec: [Order.objects...all()], lines 280-281; the
    two prefetches change how the rows are loaded, not which rows. *)
Definition resolve_orders (st : Store) : list Order := orders st.

End Query.

(** ** The language of the phone pattern *)

(** A text of [n] characters of a class. *)
Definition spec_digits_of (p : ascii -> bool) (n : nat) (s : string) : Prop :=
  String.length s = n /\ Py.all_chars p s = true.

(** Nothing, or one separator of the pattern. *)
Definition pattern_separator (s : string) : Prop :=
  s = EmptyString \/ exists c, s = String c EmptyString /\ phone_sep c = true.

(** The texts the pattern describes: as [spec_phone], with any separator
    of the class [[-.\s]] and an optional newline at the end. *)
Definition phone_shape (p : string) : Prop :=
  exists plus a s1 b s2 c e,
    p = plus ++ a ++ s1 ++ b ++ s2 ++ c ++ e
    /\ (plus = EmptyString \/ plus = "+")
    /\ spec_digits 3 a /\ pattern_separator s1
    /\ spec_digits 3 b /\ pattern_separator s2
    /\ spec_digits 4 c
    /\ (e = EmptyString \/ e = String Re.newline EmptyString).

(** ** Well-formed stores *)

(** The keys of a table: every row has one, none is above the sequence,
    and no two rows share one. *)
Definition keys_ok {A : Type} (pk : A -> option nat) (seq : nat) (rows : list A) : Prop :=
  Forall (fun r => exists n, pk r = Some n /\ (n <= seq)%nat) rows
  /\ NoDup (map pk rows).

(** A stored product: a price above zero and a stock of at least zero. *)
Definition product_ok (p : Product) : Prop :=
  (0 < coefficient (product_price p))%Z /\ (0 <= product_stock p)%Z.

(** A stored order: it has products, each linked once and stored; its
    customer is stored; its total is the sum of the linked prices. *)
Definition order_ok (st : Store) (o : Order) : Prop :=
  order_products o <> []
  /\ NoDup (order_products o)
  /\ (forall n, In n (order_products o) ->
                exists p, In p (products st) /\ product_pk p = Some n)
  /\ (exists c n, In c (customers st) /\ customer_pk c = Some n
                  /\ order_customer o = Some n)
  /\ order_total_amount o = Decimal_sum (linked_prices st (order_products o)).

Definition store_ok (st : Store) : Prop :=
  keys_ok customer_pk (customer_seq st) (customers st)
  /\ keys_ok product_pk (product_seq st) (products st)
  /\ keys_ok order_pk (order_seq st) (orders st)
  /\ NoDup (map customer_email (customers st))
  /\ Forall product_ok (products st)
  /\ Forall (order_ok st) (orders st).

(** ** Reference functions for the bulk mutation *)

(** The store after a row that the two checks accept: the row is stored
    unless its email is there already. *)
Definition store_row (st : Store) (input : CustomerInput.t) : Store :=
  if existsb (has_email (CustomerInput.email input)) (customers st)
  then st
  else with_customer (new_customer input st) st.

(** The emails of a list that are not in [seen], each at its first
    occurrence. *)
Fixpoint fresh_emails (seen emails : list string) : list string :=
  match emails with
  | [] => []
  | e :: rest =>
      if existsb (String.eqb e) seen then fresh_emails seen rest
      else e :: fresh_emails (seen ++ [e]) rest
  end.

(** The error of a row whose email is stored already. *)
Definition duplicate_row (idx : nat) : ErrorType.t :=
  ErrorType.make ("email (row " ++ Py.str_of_nat (idx + 1) ++ ")")
                 ["Customer with this Email already exists."].

(** The product [Product.save] stores for an input, and the store after. *)
Definition new_product (input : ProductInput.t) (st : Store) : Product :=
  mkProduct (Some (S (product_seq st))) (ProductInput.name input)
            (ProductInput.price input) (stock_or_zero (ProductInput.stock input)).

Definition with_product (p : Product) (st : Store) : Store :=
  mkStore (customers st) (products st ++ [p]) (orders st)
          (customer_seq st) (S (product_seq st)) (order_seq st).

(** The store after an order is placed on a store whose keys are in order. *)
Definition with_order (o : Order) (st : Store) : Store :=
  mkStore (customers st) (products st) (orders st ++ [o])
          (customer_seq st) (product_seq st) (S (order_seq st)).

(** ** Rows of the bulk list, which may be null *)

(** An element of the list that one of the two checks refuses. *)
Definition refused (email_grammar : string -> bool) (row : option CustomerInput.t) : bool :=
  match row with
  | Some input => row_refused email_grammar input
  | None => false
  end.

(** The rows of the list that are not null, in order. *)
Definition given (rows : list (option CustomerInput.t)) : list CustomerInput.t :=
  flat_map (fun row => match row with
                       | Some input => [input]
                       | None => []
                       end) rows.

(** The error of a null row. *)
Definition null_row (idx : nat) : ErrorType.t :=
  ErrorType.make ("phone (row " ++ Py.str_of_nat (idx + 1) ++ ")")
                 ["'NoneType' object has no attribute 'phone'"].

(** The error of a row: a null row gives the one of [phone], a row whose
    email is stored the one of [email]. *)
Definition row_error (inputs : list (option CustomerInput.t)) (idx k : nat)
           (e : ErrorType.t) : Prop :=
  (idx <= k)%nat
  /\ ((nth_error inputs (k - idx) = Some None /\ e = null_row k)
      \/ ((exists input, nth_error inputs (k - idx) = Some (Some input))
          /\ e = duplicate_row k)).

(** ** Ids as the lookups read them *)




(** The exception that leaves lines 204-207 for an id under which no
    customer is found: the error of line 207 for a number, the error of the
    conversion otherwise. *)
Definition customer_unresolved (id : string) : Exception :=
  match PyInt.int id with
  | Some _ => ValidationError "Customer does not exist"
  | None => not_a_number id
  end.

(** The exception that leaves lines 212-216 for an id under which no
    product is found. *)
Definition product_unresolved (id : string) : Exception :=
  match PyInt.int id with
  | Some _ => product_missing id
  | None => not_a_number id
  end.

(** The result of the handler of lines 228-235 for an exception. *)
Definition order_refused (e : Exception) : CreateOrder.t :=
  order_failure (CreateOrder.error_field e) (Exception_str e).

(** ** Totals over the linked rows *)

(** The total of an order stated on the linked rows themselves: a list of
    stored products, one for each linked key and in the order of the keys,
    whose prices add up to the total. *)
Definition order_total_sound (st : Store) (o : Order) : Prop :=
  exists linked : list Product,
    map product_pk linked = map Some (order_products o)
    /\ Forall (fun p => In p (products st)) linked
    /\ order_total_amount o = Decimal_sum (map product_price linked).

(** A store in order whose orders have the totals of their linked rows. *)
Definition store_sound (st : Store) : Prop :=
  store_ok st /\ Forall (order_total_sound st) (orders st).

(** The first stored product under each key of a list. *)
Definition products_under (st : Store) (keys : list nat) : list Product :=
  flat_map
    (fun key =>
       match find (fun p => match product_pk p with
                            | Some n => Nat.eqb n key
                            | None => false
                            end) (products st) with
       | Some p => [p]
       | None => []
       end) keys.

(** ** Writes that fail, for the examples *)


(** * Theorems *)

(** ** The phone pattern on examples *)

Example phone_dashes : Re.rmatch phone_regex "123-456-7890" = true.
Proof. reflexivity. Qed.

Example phone_plus_plain : Re.rmatch phone_regex "+1234567890" = true.
Proof. reflexivity. Qed.

Example phone_short : Re.rmatch phone_regex "12-456-7890" = false.
Proof. reflexivity. Qed.

Example phone_trailing : Re.rmatch phone_regex "123-456-78901" = false.
Proof. reflexivity. Qed.

(** ** Character facts *)

Lemma digit_not_plus (c : ascii) : Re.digit c = true -> Ascii.eqb "+" c = false.
Proof.
  destruct c as [[] [] [] [] [] [] [] []]; cbv; intros H; first [reflexivity | discriminate H].
Qed.

Lemma digit_not_sep (c : ascii) : Re.digit c = true -> phone_sep c = false.
Proof.
  destruct c as [[] [] [] [] [] [] [] []]; cbv; intros H; first [reflexivity | discriminate H].
Qed.

Lemma spec_digits_3 (s : string) :
  spec_digits 3 s ->
  exists x y z, s = String x (String y (String z EmptyString))
                /\ Re.digit x = true /\ Re.digit y = true /\ Re.digit z = true.
Proof.
  intros [Hlen Hall].
  destruct s as [|x [|y [|z [|w s]]]]; try discriminate Hlen.
  simpl in Hall. repeat (apply andb_true_iff in Hall; destruct Hall as [? Hall]).
  exists x, y, z. auto.
Qed.

Lemma spec_digits_4 (s : string) :
  spec_digits 4 s ->
  exists x y z w, s = String x (String y (String z (String w EmptyString)))
                /\ Re.digit x = true /\ Re.digit y = true /\ Re.digit z = true
                /\ Re.digit w = true.
Proof.
  intros [Hlen Hall].
  destruct s as [|x [|y [|z [|w [|v s]]]]]; try discriminate Hlen.
  simpl in Hall. repeat (apply andb_true_iff in Hall; destruct Hall as [? Hall]).
  exists x, y, z, w. auto.
Qed.

(** Every phone of the specification's format is matched by the pattern of
    the source. *)
Lemma spec_phone_matches (p : string) :
  spec_phone p -> Re.rmatch phone_regex p = true.
Proof.
  intros (plus & a & s1 & b & s2 & c & -> & Hplus & Ha & Hs1 & Hb & Hs2 & Hc).
  apply spec_digits_3 in Ha as (a1 & a2 & a3 & -> & Ha1 & Ha2 & Ha3).
  apply spec_digits_3 in Hb as (b1 & b2 & b3 & -> & Hb1 & Hb2 & Hb3).
  apply spec_digits_4 in Hc as (c1 & c2 & c3 & c4 & -> & Hc1 & Hc2 & Hc3 & Hc4).
  pose proof (digit_not_plus _ Ha1) as Pa.
  pose proof (digit_not_sep _ Hb1) as Sb.
  pose proof (digit_not_sep _ Hc1) as Sc.
  unfold Re.rmatch, phone_regex.
  destruct Hplus as [-> | ->];
    destruct Hs1 as [-> | [-> | [-> | ->]]];
    destruct Hs2 as [-> | [-> | [-> | ->]]];
    cbn -[Ascii.eqb phone_sep Re.digit];
    rewrite ?Pa, ?Sb, ?Sc, ?Ha1, ?Ha2, ?Ha3, ?Hb1, ?Hb2, ?Hb3, ?Hc1, ?Hc2, ?Hc3, ?Hc4;
    reflexivity.
Qed.

(** ** The steps of the customer mutations *)

Section CustomerMutations.

Variable email_grammar : string -> bool.

(** What one row of the bulk mutation does, by cases on the two checks and
    on the table. *)
Lemma row_cases (input : CustomerInput.t) (st : Store) :
  BulkCreateCustomers.row email_grammar input st =
    if phone_refused (CustomerInput.phone input)
    then (Raise (ValidationError "Invalid phone format"), st)
    else if email_ok email_grammar (CustomerInput.email input)
    then if existsb (has_email (CustomerInput.email input)) (customers st)
         then (Raise duplicate_email, st)
         else (Ok (new_customer input st), with_customer (new_customer input st) st)
    else (Raise (ValidationError "Enter a valid email address."), st).
Proof.
  unfold BulkCreateCustomers.row, check_phone, validate_email, raise_if, bind,
    Customer_full_clean, Customer_save.
  destruct (phone_refused (CustomerInput.phone input)); cbn; [reflexivity|].
  destruct (email_ok email_grammar (CustomerInput.email input)); cbn; [|reflexivity].
  destruct (existsb _ (customers st)) eqn:E; cbn; [reflexivity|].
  rewrite E. reflexivity.
Qed.

Lemma body_cases (input : CustomerInput.t) (st : Store) :
  CreateCustomer.body email_grammar input st =
    if phone_refused (CustomerInput.phone input)
    then (Raise (ValidationError
                   "Phone number must be in format: '+1234567890' or '123-456-7890'"), st)
    else if email_ok email_grammar (CustomerInput.email input)
    then if existsb (has_email (CustomerInput.email input)) (customers st)
         then (Raise duplicate_email, st)
         else (Ok (CreateCustomer.make (Some (new_customer input st)) None (Some true)),
               with_customer (new_customer input st) st)
    else (Raise (ValidationError "Enter a valid email address."), st).
Proof.
  unfold CreateCustomer.body, check_phone, validate_email, raise_if, bind,
    Customer_full_clean, Customer_save.
  destruct (phone_refused (CustomerInput.phone input)); cbn; [reflexivity|].
  destruct (email_ok email_grammar (CustomerInput.email input)); cbn; [|reflexivity].
  destruct (existsb _ (customers st)) eqn:E; cbn; [reflexivity|].
  rewrite E. reflexivity.
Qed.

(** The first handler of [CreateCustomer] on the two shapes of
    [ValidationError]. *)
Lemma handler_one_message (m : string) (st : Store) :
  CreateCustomer.handler (ValidationError m) st = (Raise no_error_dict, st).
Proof. reflexivity. Qed.

Lemma handler_duplicate (st : Store) :
  CreateCustomer.handler duplicate_email st = (Raise unexpected_success, st).
Proof. reflexivity. Qed.

Lemma handler_integrity (m : string) (st : Store) :
  CreateCustomer.handler (IntegrityError m) st =
    (Ok (CreateCustomer.make None (Some (ErrorType.make "email" ["Email already exists"]))
                             (Some false)), st).
Proof. reflexivity. Qed.

(** C4: an invalid phone or an invalid email does not come back as the
    envelope: the [ValidationError] is caught, the handler reads its
    [message_dict], and the [AttributeError] this raises leaves the
    mutation.  The store is untouched. *)
Theorem create_customer_validation_escapes (input : CustomerInput.t) (st : Store) :
  phone_refused (CustomerInput.phone input) = true
  \/ email_ok email_grammar (CustomerInput.email input) = false ->
  CreateCustomer.mutate email_grammar input st = (Raise no_error_dict, st).
Proof.
  intros H. unfold CreateCustomer.mutate, try_except. rewrite body_cases.
  destruct (phone_refused (CustomerInput.phone input)).
  - apply handler_one_message.
  - destruct H as [H | H]; [discriminate H|]. rewrite H. apply handler_one_message.
Qed.

Lemma filter_none {A : Type} (p : A -> bool) (l : list A) :
  existsb p l = false -> filter p l = [].
Proof.
  induction l as [|x l IH]; cbn; [reflexivity|].
  destruct (p x); cbn; [discriminate|]. exact IH.
Qed.

(** C6: the first of two calls with one email succeeds and stores the
    customer; the second finds the duplicate in [full_clean], and its
    handler raises [TypeError] instead of returning the envelope with field
    [email] and [success=False].  One customer has the email afterwards. *)
Theorem create_customer_twice (input : CustomerInput.t) (st : Store) :
  phone_refused (CustomerInput.phone input) = false ->
  email_ok email_grammar (CustomerInput.email input) = true ->
  existsb (has_email (CustomerInput.email input)) (customers st) = false ->
  exists c st1,
    CreateCustomer.mutate email_grammar input st =
      (Ok (CreateCustomer.make (Some c) None (Some true)), st1)
    /\ customer_email c = CustomerInput.email input
    /\ CreateCustomer.mutate email_grammar input st1 = (Raise unexpected_success, st1)
    /\ count_email (CustomerInput.email input) st1 = 1.
Proof.
  intros Hp He Hn.
  exists (new_customer input st), (with_customer (new_customer input st) st).
  assert (Hin : existsb (has_email (CustomerInput.email input))
                  (customers (with_customer (new_customer input st) st)) = true).
  { cbn. rewrite existsb_app. cbn. unfold has_email at 1. cbn.
    rewrite String.eqb_refl. apply orb_true_r. }
  repeat split.
  - unfold CreateCustomer.mutate, try_except. rewrite body_cases, Hp, He, Hn. reflexivity.
  - unfold CreateCustomer.mutate, try_except. rewrite body_cases, Hp, He, Hin.
    apply handler_duplicate.
  - unfold count_email. cbn. rewrite filter_app, (filter_none _ _ Hn). cbn.
    unfold has_email. cbn. rewrite String.eqb_refl. reflexivity.
Qed.

(** C8, as the code has it: a valid email, a phone of the specification's
    format and an email no stored customer has give a success, and the
    customer is stored with the input's name, email and phone. *)
Theorem create_customer_succeeds (name email p : string) (st : Store) :
  email_ok email_grammar email = true ->
  spec_phone p ->
  existsb (has_email email) (customers st) = false ->
  exists c st',
    CreateCustomer.mutate email_grammar (CustomerInput.make name email (Some p)) st =
      (Ok (CreateCustomer.make (Some c) None (Some true)), st')
    /\ customer_email c = email
    /\ customer_name c = name
    /\ customer_phone c = p
    /\ customers st' = (customers st ++ [c])%list.
Proof.
  intros He Hp Hn.
  set (input := CustomerInput.make name email (Some p)).
  exists (new_customer input st), (with_customer (new_customer input st) st).
  repeat split.
  unfold CreateCustomer.mutate, try_except. rewrite body_cases.
  change (phone_refused (CustomerInput.phone input))
    with (Py.truthy p && negb (Re.rmatch phone_regex p)).
  rewrite (spec_phone_matches _ Hp), andb_false_r.
  change (CustomerInput.email input) with email. rewrite He, Hn. reflexivity.
Qed.

(** ** The loop of the bulk mutation *)

Lemma bulk_handler_one_message (idx : nat) (a : BulkCreateCustomers.acc)
      (m : string) (st : Store) :
  BulkCreateCustomers.handler idx a (ValidationError m) st = (Raise no_error_dict, st).
Proof. destruct a as [[cs es] b]. reflexivity. Qed.

Lemma bulk_handler_duplicate (idx : nat) (a : BulkCreateCustomers.acc) (st : Store) :
  exists a', BulkCreateCustomers.handler idx a duplicate_email st = (Ok a', st).
Proof. destruct a as [[cs es] b]. eexists. reflexivity. Qed.

(** A null row is reported under [phone] and the loop goes on. *)
Lemma bulk_handler_null_row (idx : nat) (cs : list Customer) (es : list ErrorType.t)
      (b : bool) (st : Store) :
  BulkCreateCustomers.handler idx (cs, es, b)
    (AttributeError "'NoneType' object has no attribute 'phone'") st
  = (Ok (cs, (es ++ [null_row idx])%list, false), st).
Proof. reflexivity. Qed.

(** A row that one of the two checks refuses ends the loop with the
    [AttributeError] of the handler, whatever came before it. *)
Lemma loop_aborts (inputs : list (option CustomerInput.t)) :
  forall (idx : nat) (a : BulkCreateCustomers.acc) (st : Store),
    existsb (refused email_grammar) inputs = true ->
    exists st', BulkCreateCustomers.loop email_grammar idx inputs a st
                = (Raise no_error_dict, st').
Proof.
  induction inputs as [|[input|] rest IH]; intros idx a st H; [discriminate H| |].
  - cbn [existsb refused] in H. cbn [BulkCreateCustomers.loop BulkCreateCustomers.attempt].
    unfold bind at 1, try_except, bind at 1. rewrite row_cases.
    unfold row_refused in H at 1.
    destruct (phone_refused (CustomerInput.phone input)).
    + exists st. rewrite bulk_handler_one_message. reflexivity.
    + destruct (email_ok email_grammar (CustomerInput.email input)); cbn in H.
      * destruct (existsb _ (customers st)).
        -- destruct (bulk_handler_duplicate idx a st) as [a' ->]. apply IH, H.
        -- destruct a as [[cs es] b]. cbn. apply IH, H.
      * exists st. rewrite bulk_handler_one_message. reflexivity.
  - cbn [existsb refused orb] in H.
    cbn [BulkCreateCustomers.loop BulkCreateCustomers.attempt].
    unfold bind at 1, try_except, bind at 1, raise. destruct a as [[cs es] b].
    rewrite bulk_handler_null_row. apply IH, H.
Qed.

(** A row that one of the two checks refuses makes the whole mutation
    raise, and the transaction restores the store. *)
Lemma bulk_refused_row_aborts (inputs : list (option CustomerInput.t)) (st : Store) :
  existsb (refused email_grammar) inputs = true ->
  BulkCreateCustomers.mutate email_grammar inputs st = (Raise no_error_dict, st).
Proof.
  intros H. unfold BulkCreateCustomers.mutate, atomic, bind.
  destruct (loop_aborts inputs 0 ([], [], true) st H) as [st' ->]. reflexivity.
Qed.

(** C1: three rows whose second has an invalid email.  The second row's
    [ValidationError] has no [error_dict], the handler of the row raises
    [AttributeError] on [message_dict], and the exception leaves the
    mutation: there is no result with two customers and one error, the
    third row is not attempted and the transaction is rolled back,
    whatever the first and the third row are, null rows included. *)
Theorem bulk_create_invalid_email_aborts (row1 row3 : option CustomerInput.t)
        (row2 : CustomerInput.t) (st : Store) :
  email_ok email_grammar (CustomerInput.email row2) = false ->
  BulkCreateCustomers.mutate email_grammar [row1; Some row2; row3] st
  = (Raise no_error_dict, st).
Proof.
  intros H. apply bulk_refused_row_aborts.
  cbn [existsb refused]. unfold row_refused at 1. rewrite H.
  cbn [negb]. rewrite orb_true_r, orb_true_l, orb_true_r. reflexivity.
Qed.

(** C9: no input, no customer, no error, success, and the same store. *)
Theorem bulk_create_nothing (st : Store) :
  BulkCreateCustomers.mutate email_grammar [] st
  = (Ok (BulkCreateCustomers.make [] [] true), st).
Proof.
  unfold BulkCreateCustomers.mutate, atomic, bind.
  cbn [BulkCreateCustomers.loop]. reflexivity.
Qed.

End CustomerMutations.
(** ** Decimals *)

Lemma float_le_zero_nonpositive (d : Decimal) :
  (coefficient d <= 0)%Z -> float_le_zero d = true.
Proof.
  intros H. unfold float_le_zero.
  assert (T : (0 < 2 ^ 1075)%Z) by (apply Z.pow_pos_nonneg; lia).
  remember (2 ^ 1075)%Z as t eqn:Et. clear Et.
  destruct (0 <=? exponent d)%Z eqn:E; apply Z.leb_le.
  - apply Z.leb_le in E.
    pose proof (Z.pow_nonneg 10 (exponent d) ltac:(lia)). nia.
  - apply Z.leb_gt in E.
    pose proof (Z.pow_pos_nonneg 10 (- exponent d) ltac:(lia) ltac:(lia)). nia.
Qed.

Lemma Decimal_value_shift (c e e' : Z) :
  (e' <= e)%Z ->
  Qeq (Decimal_value (mkDecimal (c * 10 ^ (e - e')) e')) (Decimal_value (mkDecimal c e)).
Proof.
  intros H. unfold Decimal_value. cbn [coefficient exponent].
  rewrite inject_Z_mult, Zpower_Qpower by lia.
  replace e with ((e - e') + e')%Z at 2 by lia.
  rewrite Qpower_plus by discriminate.
  ring.
Qed.

(** The addition of decimals is exact. *)
Lemma Decimal_add_value (a b : Decimal) :
  Qeq (Decimal_value (Decimal_add a b)) (Decimal_value a + Decimal_value b)%Q.
Proof.
  destruct a as [ca ea], b as [cb eb]. unfold Decimal_add. cbn [coefficient exponent].
  set (e := Z.min ea eb).
  rewrite <- (Decimal_value_shift ca ea e), <- (Decimal_value_shift cb eb e)
    by (subst e; lia).
  unfold Decimal_value. cbn [coefficient exponent].
  rewrite inject_Z_plus. ring.
Qed.

Lemma Decimal_fold_value (l : list Decimal) :
  forall acc,
    Qeq (Decimal_value (fold_left Decimal_add l acc))
        (Decimal_value acc + Qsum (map Decimal_value l))%Q.
Proof.
  induction l as [|d l IH]; intros acc; cbn [fold_left map Qsum fold_right].
  - ring.
  - rewrite IH, Decimal_add_value. fold (Qsum (map Decimal_value l)). ring.
Qed.

(** The sum of decimals is the exact sum of their values. *)
Lemma Decimal_sum_value (l : list Decimal) :
  Qeq (Decimal_value (Decimal_sum l)) (Qsum (map Decimal_value l)).
Proof.
  unfold Decimal_sum. rewrite Decimal_fold_value.
  assert (Z0 : Qeq (Decimal_value Decimal_zero) 0%Q) by reflexivity.
  rewrite Z0. ring.
Qed.

(** 10.00 + 15.50 = 25.50. *)
Example Decimal_sum_example :
  Decimal_sum [mkDecimal 1000 (-2); mkDecimal 1550 (-2)] = mkDecimal 2550 (-2).
Proof. reflexivity. Qed.

(** ** CreateProduct *)

Lemma product_handler_price (st : Store) :
  CreateProduct.handler (ValidationError "Price must be positive") st
  = (Ok (product_failure "price" "['Price must be positive']"), st).
Proof. reflexivity. Qed.

Lemma product_handler_stock (st : Store) :
  CreateProduct.handler (ValidationError "Stock cannot be negative") st
  = (Ok (product_failure "stock" "['Stock cannot be negative']"), st).
Proof. reflexivity. Qed.

(** C7, as the code has it: a price of zero or less fails with field
    [price]; a negative stock fails with field [stock] when the price
    passes the price check, which comes first.  The store is untouched. *)
Theorem create_product_rejects (input : ProductInput.t) (st : Store) :
  ((coefficient (ProductInput.price input) <= 0)%Z ->
   CreateProduct.mutate input st
   = (Ok (product_failure "price" "['Price must be positive']"), st))
  /\ (forall n : Z,
        float_le_zero (ProductInput.price input) = false ->
        ProductInput.stock input = Some n ->
        (n < 0)%Z ->
        CreateProduct.mutate input st
        = (Ok (product_failure "stock" "['Stock cannot be negative']"), st)).
Proof.
  split.
  - intros H. unfold CreateProduct.mutate, try_except, CreateProduct.body, bind, raise_if.
    rewrite (float_le_zero_nonpositive _ H). apply product_handler_price.
  - intros n Hp Hs Hn.
    unfold CreateProduct.mutate, try_except, CreateProduct.body, bind, raise_if.
    rewrite Hp, Hs. cbn [ret stock_truthy stock_or_zero].
    replace (n =? 0)%Z with false by (symmetry; apply Z.eqb_neq; lia).
    replace (n <? 0)%Z with true by (symmetry; apply Z.ltb_lt; lia).
    apply product_handler_stock.
Qed.

(** ** Integers from text *)

Lemma digit_chars (c : ascii) :
  Re.digit c = true ->
  Re.space c = false /\ Ascii.eqb c "+" = false /\ Ascii.eqb c "-" = false.
Proof.
  destruct c as [[] [] [] [] [] [] [] []]; cbv; intros H;
    first [discriminate H | repeat split].
Qed.

Lemma uint_digits (d : Decimal.uint) :
  Py.all_chars Re.digit (NilEmpty.string_of_uint d) = true.
Proof. induction d; cbn [NilEmpty.string_of_uint Py.all_chars]; auto. Qed.

Lemma str_of_nat_digits (n : nat) : Py.all_chars Re.digit (Py.str_of_nat n) = true.
Proof. apply uint_digits. Qed.

Lemma str_of_nat_not_empty (n : nat) : Py.str_of_nat n <> EmptyString.
Proof.
  unfold Py.str_of_nat. intros H.
  pose proof (NilEmpty.usu (Nat.to_uint n)) as U. rewrite H in U.
  cbn in U. injection U as U.
  pose proof (DecimalNat.Unsigned.of_to n) as O. rewrite <- U in O.
  cbn in O. subst n. discriminate U.
Qed.

Lemma lstrip_digits (s : string) :
  Py.all_chars Re.digit s = true -> PyInt.lstrip s = s.
Proof.
  destruct s as [|c s]; [reflexivity|]. cbn [Py.all_chars PyInt.lstrip]. intros H.
  apply andb_true_iff in H as [Hc _]. destruct (digit_chars c Hc) as (-> & _). reflexivity.
Qed.

Lemma rstrip_digits (s : string) :
  Py.all_chars Re.digit s = true -> PyInt.rstrip s = s.
Proof.
  induction s as [|c s IH]; [reflexivity|]. cbn [Py.all_chars PyInt.rstrip]. intros H.
  apply andb_true_iff in H as [Hc Hs]. rewrite (IH Hs).
  destruct (digit_chars c Hc) as (-> & _). destruct s; reflexivity.
Qed.

Lemma ungroup_digits (s : string) :
  Py.all_chars Re.digit s = true -> PyInt.ungroup s true = Some s.
Proof.
  induction s as [|c s IH]; [reflexivity|]. cbn [Py.all_chars PyInt.ungroup]. intros H.
  apply andb_true_iff in H as [Hc Hs]. rewrite Hc, (IH Hs). reflexivity.
Qed.

(** A key, as it prints, converts to itself. *)
Lemma int_str_of_nat (n : nat) : PyInt.int (Py.str_of_nat n) = Some (Z.of_nat n).
Proof.
  pose proof (str_of_nat_digits n) as D. pose proof (str_of_nat_not_empty n) as E.
  unfold PyInt.int. rewrite (lstrip_digits _ D), (rstrip_digits _ D).
  destruct (Py.str_of_nat n) as [|c s] eqn:S; [contradiction|].
  pose proof D as D'. cbn [Py.all_chars] in D'. apply andb_true_iff in D' as [Hc Hs].
  destruct (digit_chars c Hc) as (_ & -> & ->).
  unfold PyInt.magnitude. cbn [PyInt.ungroup]. rewrite Hc, (ungroup_digits s Hs).
  cbn [option_map]. rewrite <- S. unfold Py.str_of_nat.
  rewrite NilEmpty.usu. cbn [option_map].
  rewrite DecimalNat.Unsigned.of_to. reflexivity.
Qed.








(** Examples of the conversion. *)
Example int_plain : PyInt.int "7" = Some 7%Z.
Proof. reflexivity. Qed.

Example int_leading_zero : PyInt.int "01" = Some 1%Z.
Proof. reflexivity. Qed.

Example int_spaces_and_sign : PyInt.int " +1 " = Some 1%Z.
Proof. reflexivity. Qed.

Example int_grouped : PyInt.int "1_000" = Some 1000%Z.
Proof. reflexivity. Qed.

Example int_negative : PyInt.int "-3" = Some (-3)%Z.
Proof. reflexivity. Qed.

Example int_letters : PyInt.int "abc" = None.
Proof. reflexivity. Qed.

Example int_empty : PyInt.int EmptyString = None.
Proof. reflexivity. Qed.

Example int_double_underscore : PyInt.int "1__0" = None.
Proof. reflexivity. Qed.

Example int_sign_alone : PyInt.int "+" = None.
Proof. reflexivity. Qed.

(** ** CreateOrder: the lookups *)

Lemma find_not_a_number {A : Type} (pk : A -> option nat) (id : string) (rows : list A) :
  PyInt.int id = None -> find (fun r => pk_matches (pk r) id) rows = None.
Proof.
  intros H. induction rows as [|r rows IH]; [reflexivity|]. cbn [find].
  unfold pk_matches at 1. rewrite H. destruct (pk r); exact IH.
Qed.

Lemma get_customer_cases (id : string) (st : Store) :
  CreateOrder.get_customer id st =
    match find_customer st id with
    | Some c => (Ok c, st)
    | None => (Raise (customer_unresolved id), st)
    end.
Proof.
  unfold CreateOrder.get_customer, try_except, Customer_objects_get, customer_unresolved.
  destruct (PyInt.int id) eqn:E.
  - destruct (find_customer st id); reflexivity.
  - unfold find_customer. rewrite (find_not_a_number customer_pk id _ E). reflexivity.
Qed.

Lemma get_product_cases (id : string) (st : Store) :
  CreateOrder.get_product id st =
    match find_product st id with
    | Some p => (Ok p, st)
    | None => (Raise (product_unresolved id), st)
    end.
Proof.
  unfold CreateOrder.get_product, try_except, Product_objects_get, product_unresolved.
  destruct (PyInt.int id) eqn:E.
  - destruct (find_product st id); reflexivity.
  - unfold find_product. rewrite (find_not_a_number product_pk id _ E). reflexivity.
Qed.

(** Ids that all resolve give their products, in order. *)
Lemma get_products_resolved (ids : list string) :
  forall (acc : list Product) (st : Store),
    Forall (resolves st) ids ->
    exists ps,
      CreateOrder.get_products ids acc st = (Ok (acc ++ ps)%list, st)
      /\ Forall2 (fun id p => find_product st id = Some p) ids ps.
Proof.
  induction ids as [|id ids IH]; intros acc st H.
  - exists []. rewrite app_nil_r. split; [reflexivity | constructor].
  - inversion H as [|? ? Hid Hrest]; subst.
    cbn [CreateOrder.get_products]. unfold bind. rewrite get_product_cases.
    unfold resolves in Hid. destruct (find_product st id) as [p|] eqn:E; [|contradiction].
    destruct (IH (acc ++ [p])%list st Hrest) as (ps & -> & F).
    exists (p :: ps). rewrite <- app_assoc. split; [reflexivity|].
    constructor; assumption.
Qed.

(** The first id that does not resolve ends the loop with its error. *)
Lemma get_products_missing (pre : list string) :
  forall (acc : list Product) (st : Store) (p : string) (post : list string),
    Forall (resolves st) pre ->
    find_product st p = None ->
    CreateOrder.get_products (pre ++ p :: post) acc st = (Raise (product_unresolved p), st).
Proof.
  induction pre as [|id pre IH]; intros acc st p post H Hp.
  - cbn [app CreateOrder.get_products]. unfold bind.
    rewrite get_product_cases, Hp. reflexivity.
  - inversion H as [|? ? Hid Hrest]; subst.
    cbn [app CreateOrder.get_products]. unfold bind. rewrite get_product_cases.
    unfold resolves in Hid. destruct (find_product st id) as [q|]; [|contradiction].
    apply IH; assumption.
Qed.

(** Either every id resolves or there is a first one that does not. *)
Lemma resolve_or_missing (st : Store) (ids : list string) :
  Forall (resolves st) ids
  \/ exists pre p post,
       ids = (pre ++ p :: post)%list /\ Forall (resolves st) pre /\ find_product st p = None.
Proof.
  induction ids as [|id ids IH].
  - left. constructor.
  - destruct (find_product st id) as [q|] eqn:E.
    + assert (R : resolves st id) by (unfold resolves; rewrite E; discriminate).
      destruct IH as [IH | (pre & p & post & -> & Hpre & Hp)].
      * left. constructor; assumption.
      * right. exists (id :: pre), p, post. repeat split; [constructor|]; assumption.
    + right. exists [], id, ids. repeat split; [constructor | assumption].
Qed.

(** ** CreateOrder: the handler *)

(** The handler returns the envelope for every exception. *)
Lemma order_handler_cases (e : Exception) (st : Store) :
  CreateOrder.handler e st = (Ok (order_refused e), st).
Proof. reflexivity. Qed.

Lemma order_refused_customer :
  order_refused (ValidationError "Customer does not exist")
  = order_failure "customer_id" "['Customer does not exist']".
Proof. reflexivity. Qed.

Lemma order_refused_empty :
  order_refused (ValidationError "At least one product must be specified")
  = order_failure "product_ids" "['At least one product must be specified']".
Proof. reflexivity. Qed.



(** ** CreateOrder: the four outcomes *)

(** With a customer and a list of products that is not empty, the [try]
    block stores the order and returns it. *)
Lemma body_places_order (input : OrderInput.t) (st : Store) (c : Customer)
      (ps : list Product) :
  find_customer st (OrderInput.customer_id input) = Some c ->
  CreateOrder.get_products (OrderInput.product_ids input) [] st = (Ok ps, st) ->
  ps <> [] ->
  exists st',
    CreateOrder.body input st
    = (Ok (CreateOrder.make (Some (placed_order c ps st)) None (Some true)), st')
    /\ In (placed_order c ps st) (orders st')
    /\ customers st' = customers st
    /\ products st' = products st.
Proof.
  intros Hc Hps Hne.
  unfold CreateOrder.body, CreateOrder.body_with, bind.
  rewrite get_customer_cases, Hc, Hps.
  destruct ps as [|p ps]; [contradiction|].
  unfold raise_if, ret, model_writes, writes_create, writes_set, writes_save,
    Order_objects_create, Order_products_set, Order_save.
  cbn [order_pk order_customer order_products order_total_amount].
  eexists. split; [reflexivity|]. split; [|split; reflexivity].
  unfold update_order. cbn [orders customers products customer_seq product_seq order_seq
                              order_pk].
  rewrite !map_app. apply in_or_app. right.
  repeat (cbn [map same_order order_pk]; rewrite ?Nat.eqb_refl).
  left. reflexivity.
Qed.

Lemma mutate_as_body (input : OrderInput.t) (st : Store) :
  CreateOrder.mutate input st
  = atomic (try_except (CreateOrder.body input) CreateOrder.handler) st.
Proof. reflexivity. Qed.

Lemma mutate_customer_unresolved (input : OrderInput.t) (st : Store) :
  find_customer st (OrderInput.customer_id input) = None ->
  CreateOrder.mutate input st
  = (Ok (order_refused (customer_unresolved (OrderInput.customer_id input))), st).
Proof.
  intros H. rewrite mutate_as_body.
  unfold atomic, try_except, CreateOrder.body, CreateOrder.body_with, bind.
  rewrite get_customer_cases, H, order_handler_cases. reflexivity.
Qed.

Lemma mutate_product_unresolved (input : OrderInput.t) (st : Store) (c : Customer)
      (pre : list string) (p : string) (post : list string) :
  find_customer st (OrderInput.customer_id input) = Some c ->
  OrderInput.product_ids input = (pre ++ p :: post)%list ->
  Forall (resolves st) pre ->
  find_product st p = None ->
  CreateOrder.mutate input st = (Ok (order_refused (product_unresolved p)), st).
Proof.
  intros Hc Hids Hpre Hp. rewrite mutate_as_body.
  unfold atomic, try_except, CreateOrder.body, CreateOrder.body_with, bind.
  rewrite get_customer_cases, Hc, Hids, (get_products_missing pre [] st p post Hpre Hp).
  rewrite order_handler_cases. reflexivity.
Qed.

Lemma mutate_no_product (input : OrderInput.t) (st : Store) (c : Customer) :
  find_customer st (OrderInput.customer_id input) = Some c ->
  OrderInput.product_ids input = [] ->
  CreateOrder.mutate input st
  = (Ok (order_failure "product_ids" "['At least one product must be specified']"), st).
Proof.
  intros Hc Hids. rewrite mutate_as_body.
  unfold atomic, try_except, CreateOrder.body, CreateOrder.body_with, bind.
  rewrite get_customer_cases, Hc, Hids. cbn [CreateOrder.get_products ret raise_if raise].
  rewrite order_handler_cases. reflexivity.
Qed.

Lemma mutate_places_order (input : OrderInput.t) (st : Store) (c : Customer) :
  find_customer st (OrderInput.customer_id input) = Some c ->
  OrderInput.product_ids input <> [] ->
  Forall (resolves st) (OrderInput.product_ids input) ->
  exists ps st',
    Forall2 (fun id p => find_product st id = Some p) (OrderInput.product_ids input) ps
    /\ CreateOrder.mutate input st
       = (Ok (CreateOrder.make (Some (placed_order c ps st)) None (Some true)), st')
    /\ In (placed_order c ps st) (orders st')
    /\ customers st' = customers st
    /\ products st' = products st.
Proof.
  intros Hc Hne Hall.
  destruct (get_products_resolved _ [] st Hall) as (ps & Hps & F).
  cbn [app] in Hps.
  assert (Hps_ne : ps <> []).
  { intros ->. inversion F as [E|]. apply Hne. symmetry. exact E. }
  destruct (body_places_order input st c ps Hc Hps Hps_ne) as (st' & Hb & Hin & Hcs & Hprod).
  exists ps, st'. split; [exact F|]. split; [|auto].
  rewrite mutate_as_body. unfold atomic, try_except. rewrite Hb. reflexivity.
Qed.

(** The four outcomes cover every call. *)
Lemma mutate_outcomes (input : OrderInput.t) (st : Store) :
  (exists field message,
     CreateOrder.mutate input st = (Ok (order_failure field message), st))
  \/ (exists c ps st',
        find_customer st (OrderInput.customer_id input) = Some c
        /\ Forall2 (fun id p => find_product st id = Some p)
                   (OrderInput.product_ids input) ps
        /\ CreateOrder.mutate input st
           = (Ok (CreateOrder.make (Some (placed_order c ps st)) None (Some true)), st')
        /\ In (placed_order c ps st) (orders st')
        /\ customers st' = customers st
        /\ products st' = products st).
Proof.
  destruct (find_customer st (OrderInput.customer_id input)) as [c|] eqn:Hc.
  - destruct (resolve_or_missing st (OrderInput.product_ids input))
      as [Hall | (pre & p & post & Hids & Hpre & Hp)].
    + destruct (OrderInput.product_ids input) as [|id ids] eqn:Hids.
      * left. do 2 eexists. apply (mutate_no_product input st c Hc Hids).
      * right.
        assert (Hne : OrderInput.product_ids input <> []) by (rewrite Hids; discriminate).
        rewrite <- Hids in Hall.
        destruct (mutate_places_order input st c Hc Hne Hall) as (ps & st' & F & H).
        rewrite Hids in F. exists c, ps, st'. auto.
    + left. do 2 eexists. apply (mutate_product_unresolved input st c pre p post Hc Hids Hpre Hp).
  - left. do 2 eexists. apply (mutate_customer_unresolved input st Hc).
Qed.

(** ** Keys and their printed form *)

Lemma str_of_nat_injective (n m : nat) :
  Py.str_of_nat n = Py.str_of_nat m -> n = m.
Proof.
  unfold Py.str_of_nat. intros H.
  apply (f_equal NilEmpty.uint_of_string) in H. rewrite !NilEmpty.usu in H.
  injection H as H. apply (f_equal Nat.of_uint) in H.
  rewrite !DecimalNat.Unsigned.of_to in H. exact H.
Qed.

Lemma pk_matches_key (pk : option nat) (id : string) :
  pk_matches pk id = true <-> exists n, pk = Some n /\ PyInt.int id = Some (Z.of_nat n).
Proof.
  unfold pk_matches. split.
  - destruct pk as [n|]; [|discriminate]. destruct (PyInt.int id) as [z|]; [|discriminate].
    intros H. apply Z.eqb_eq in H. subst z. exists n. split; reflexivity.
  - intros (n & -> & ->). apply Z.eqb_refl.
Qed.

Lemma pk_matches_printed (n : nat) : pk_matches (Some n) (Py.str_of_nat n) = true.
Proof. unfold pk_matches. rewrite int_str_of_nat. apply Z.eqb_refl. Qed.

Lemma find_product_key (st : Store) (id : string) (p : Product) :
  find_product st id = Some p ->
  In p (products st)
  /\ exists n, product_pk p = Some n /\ PyInt.int id = Some (Z.of_nat n).
Proof.
  intros H. apply find_some in H as [Hin Hm]. split; [exact Hin|].
  apply pk_matches_key, Hm.
Qed.

Lemma find_customer_key (st : Store) (id : string) (c : Customer) :
  find_customer st id = Some c ->
  In c (customers st)
  /\ exists n, customer_pk c = Some n /\ PyInt.int id = Some (Z.of_nat n).
Proof.
  intros H. apply find_some in H as [Hin Hm]. split; [exact Hin|].
  apply pk_matches_key, Hm.
Qed.

(** A lookup reads its id as a number only: two ids that denote one number
    find the same row. *)
Lemma find_same_number {A : Type} (pk : A -> option nat) (id id' : string) (rows : list A) :
  PyInt.int id = PyInt.int id' ->
  find (fun r => pk_matches (pk r) id) rows = find (fun r => pk_matches (pk r) id') rows.
Proof.
  intros H. induction rows as [|r rows IH]; [reflexivity|]. cbn [find].
  unfold pk_matches at 1 3. rewrite H, IH. reflexivity.
Qed.

(** The lookup by the id of a key is the search of the table for the key. *)
Lemma find_by_key {A : Type} (pk : A -> option nat) (id : string) (n : nat) (rows : list A) :
  PyInt.int id = Some (Z.of_nat n) ->
  find (fun r => pk_matches (pk r) id) rows
  = find (fun r => match pk r with Some m => Nat.eqb m n | None => false end) rows.
Proof.
  intros H. induction rows as [|r rows IH]; [reflexivity|]. cbn [find].
  unfold pk_matches at 1. rewrite H, IH. destruct (pk r) as [m|]; [|reflexivity].
  replace (Z.of_nat n =? Z.of_nat m)%Z with (Nat.eqb m n); [reflexivity|].
  destruct (Nat.eqb_spec m n) as [-> | Hne]; symmetry.
  - apply Z.eqb_refl.
  - apply Z.eqb_neq. lia.
Qed.

Lemma in_product_keys (n : nat) (ps : list Product) :
  In n (product_keys ps) <-> exists p, In p ps /\ product_pk p = Some n.
Proof.
  unfold product_keys. rewrite in_flat_map. split.
  - intros (p & Hin & Hn). exists p. split; [exact Hin|].
    destruct (product_pk p) as [m|]; [|contradiction].
    destruct Hn as [-> | []]. reflexivity.
  - intros (p & Hin & Hn). exists p. split; [exact Hin|]. rewrite Hn. left. reflexivity.
Qed.

(** The links of the order are the keys the ids denote. *)
Lemma linked_keys (st : Store) (ids : list string) (ps : list Product) :
  Forall2 (fun id p => find_product st id = Some p) ids ps ->
  forall n, In n (nodup Nat.eq_dec (product_keys ps))
            <-> exists id, In id ids /\ PyInt.int id = Some (Z.of_nat n).
Proof.
  intros F n. rewrite nodup_In, in_product_keys. split.
  - intros (p & Hin & Hn). induction F as [|id q ids ps Hf F IH]; [contradiction|].
    destruct Hin as [-> | Hin].
    + exists id. split; [left; reflexivity|].
      apply find_product_key in Hf as (_ & m & Hm & Hi). congruence.
    + destruct (IH Hin) as (id' & Hin' & Hi). exists id'. split; [right|]; assumption.
  - intros (id' & Hin & Hi). induction F as [|id q ids ps Hf F IH]; [contradiction|].
    destruct Hin as [-> | Hin].
    + exists q. split; [left; reflexivity|].
      apply find_product_key in Hf as (_ & m & Hm & Hs).
      rewrite Hi in Hs. injection Hs as Hs. apply Nat2Z.inj in Hs. congruence.
    + destruct (IH Hin) as (p & Hp & Hn). exists p. split; [right; exact Hp | exact Hn].
Qed.

Lemma linked_keys_stored (st : Store) (ids : list string) (ps : list Product) :
  Forall2 (fun id p => find_product st id = Some p) ids ps ->
  forall n, In n (nodup Nat.eq_dec (product_keys ps)) ->
            exists p, In p (products st) /\ product_pk p = Some n.
Proof.
  intros F n Hn. rewrite nodup_In, in_product_keys in Hn.
  destruct Hn as (p & Hin & Hn). exists p. split; [|exact Hn].
  induction F as [|id q ids ps Hf F IH]; [contradiction|].
  destruct Hin as [-> | Hin]; [apply find_product_key in Hf; tauto | apply IH, Hin].
Qed.

(** Every linked key that is stored contributes one price. *)
Lemma linked_prices_length (st : Store) (links : list nat) :
  (forall n, In n links -> exists p, In p (products st) /\ product_pk p = Some n) ->
  List.length (linked_prices st links) = List.length links.
Proof.
  induction links as [|n links IH]; intros H; [reflexivity|].
  unfold linked_prices in *. cbn [flat_map]. rewrite length_app, IH.
  - destruct (H n (or_introl eq_refl)) as (p & Hin & Hn).
    destruct (find _ (products st)) eqn:E; [reflexivity|].
    pose proof (find_none _ _ E p Hin) as Hf. cbn in Hf.
    rewrite Hn, Nat.eqb_refl in Hf. discriminate Hf.
  - intros m Hm. apply H. right. exact Hm.
Qed.

(** ** Ids made of digits *)

Lemma digit_plain (c : ascii) :
  Re.digit c = true ->
  Ascii.eqb Py.squote c = false
  /\ Py.repr_char Py.squote c = String c EmptyString
  /\ Py.lower_char c = c.
Proof.
  destruct c as [[] [] [] [] [] [] [] []]; cbv; intros H;
    first [discriminate H | repeat split].
Qed.

Lemma prefix_customer_digit (c : ascii) (s : string) :
  Re.digit c = true -> String.prefix "customer" (String c s) = false.
Proof.
  intros H. cbn [String.prefix].
  destruct (ascii_dec "c" c) as [<- | _]; [discriminate H | reflexivity].
Qed.

Lemma digits_no_quote (p s : string) :
  Py.all_chars Re.digit p = true ->
  Py.mem_char Py.squote (p ++ s) = Py.mem_char Py.squote s.
Proof.
  induction p as [|c p IH]; cbn [Py.all_chars append Py.mem_char]; intros H; [reflexivity|].
  apply andb_true_iff in H as [Hc Hp].
  destruct (digit_plain c Hc) as (-> & _). cbn [orb]. apply IH, Hp.
Qed.

Lemma digits_repr_body (p s : string) :
  Py.all_chars Re.digit p = true ->
  Py.repr_body Py.squote (p ++ s) = p ++ Py.repr_body Py.squote s.
Proof.
  induction p as [|c p IH]; cbn [Py.all_chars append Py.repr_body]; intros H; [reflexivity|].
  apply andb_true_iff in H as [Hc Hp].
  destruct (digit_plain c Hc) as (_ & -> & _). cbn [append]. rewrite (IH Hp). reflexivity.
Qed.

Lemma digits_lower (p s : string) :
  Py.all_chars Re.digit p = true ->
  Py.lower (p ++ s) = p ++ Py.lower s.
Proof.
  induction p as [|c p IH]; cbn [Py.all_chars append Py.lower]; intros H; [reflexivity|].
  apply andb_true_iff in H as [Hc Hp].
  destruct (digit_plain c Hc) as (_ & _ & ->). rewrite (IH Hp). reflexivity.
Qed.

Lemma digits_contains (p s : string) :
  Py.all_chars Re.digit p = true ->
  Py.contains "customer" (p ++ s) = Py.contains "customer" s.
Proof.
  induction p as [|c p IH]; cbn [Py.all_chars append]; intros H; [reflexivity|].
  apply andb_true_iff in H as [Hc Hp].
  cbn [Py.contains]. rewrite (prefix_customer_digit c _ Hc). cbn [orb]. apply IH, Hp.
Qed.

Lemma string_append_assoc (a b c : string) : (a ++ b) ++ c = a ++ b ++ c.
Proof. induction a as [|x a IH]; cbn; [reflexivity | rewrite IH; reflexivity]. Qed.

(** The text of the missing-product error for an id made of digits. *)
Lemma product_missing_digits_text (p : string) :
  Py.all_chars Re.digit p = true ->
  Exception_str (product_missing p) = "['Product with ID " ++ p ++ " does not exist']".
Proof.
  intros H. unfold product_missing, Exception_str, Py.repr_list, Py.repr_str.
  cbn [map Py.join].
  assert (Q : Py.repr_quote ("Product with ID " ++ p ++ " does not exist") = Py.squote).
  { unfold Py.repr_quote.
    change (Py.mem_char Py.squote ("Product with ID " ++ p ++ " does not exist"))
      with (Py.mem_char Py.squote (p ++ " does not exist")).
    rewrite (digits_no_quote _ _ H). reflexivity. }
  rewrite Q.
  change (Py.repr_body Py.squote ("Product with ID " ++ p ++ " does not exist"))
    with ("Product with ID " ++ Py.repr_body Py.squote (p ++ " does not exist")).
  rewrite (digits_repr_body _ _ H).
  change (Py.repr_body Py.squote " does not exist") with " does not exist".
  cbn [append]. rewrite !string_append_assoc. reflexivity.
Qed.

(** An id made of digits, as the keys print, is reported under
    [product_ids]. *)
Lemma missing_field_digits (p : string) :
  Py.all_chars Re.digit p = true -> missing_field p = "product_ids".
Proof.
  intros H. unfold missing_field. rewrite (product_missing_digits_text p H).
  change (Py.lower ("['Product with ID " ++ p ++ " does not exist']"))
    with ("['product with id " ++ Py.lower (p ++ " does not exist']")).
  rewrite (digits_lower _ _ H).
  replace (Py.contains "customer" ("['product with id " ++ p ++ Py.lower " does not exist']"))
    with (Py.contains "customer" (p ++ Py.lower " does not exist']")) by reflexivity.
  rewrite (digits_contains _ _ H). reflexivity.
Qed.

(** ** Ids without the letter u *)










(** ** The linked rows *)

Lemma linked_prices_under (st : Store) (keys : list nat) :
  linked_prices st keys = map product_price (products_under st keys).
Proof.
  unfold linked_prices, products_under.
  induction keys as [|n keys IH]; [reflexivity|]. cbn [flat_map].
  rewrite map_app, IH. destruct (find _ (products st)); reflexivity.
Qed.

Lemma products_under_keys (st : Store) (keys : list nat) :
  (forall n, In n keys -> exists p, In p (products st) /\ product_pk p = Some n) ->
  map product_pk (products_under st keys) = map Some keys.
Proof.
  unfold products_under.
  induction keys as [|n keys IH]; intros H; [reflexivity|]. cbn [flat_map map].
  rewrite map_app, IH by (intros m Hm; apply H; right; exact Hm).
  destruct (H n (or_introl eq_refl)) as (p & Hin & Hn).
  destruct (find _ (products st)) as [q|] eqn:E.
  - apply find_some in E as [_ Hq]. destruct (product_pk q) as [m|] eqn:Hm; [|discriminate Hq].
    apply Nat.eqb_eq in Hq. subst m. cbn [map app]. rewrite Hm. reflexivity.
  - pose proof (find_none _ _ E p Hin) as Hf. cbn in Hf.
    rewrite Hn, Nat.eqb_refl in Hf. discriminate Hf.
Qed.

Lemma products_under_stored (st : Store) (keys : list nat) :
  Forall (fun p => In p (products st)) (products_under st keys).
Proof.
  apply Forall_forall. intros p Hp. unfold products_under in Hp.
  apply in_flat_map in Hp as (n & _ & Hp).
  destruct (find _ (products st)) as [q|] eqn:E; [|contradiction].
  destruct Hp as [<- | []]. apply find_some in E. tauto.
Qed.

(** The rows linked to a placed order are the rows the ids resolve to. *)
Lemma products_under_links (st : Store) (ids : list string) (ps : list Product) :
  Forall2 (fun id p => find_product st id = Some p) ids ps ->
  forall p, In p (products_under st (nodup Nat.eq_dec (product_keys ps)))
            <-> exists id, In id ids /\ find_product st id = Some p.
Proof.
  intros F p. unfold products_under. rewrite in_flat_map. split.
  - intros (n & Hn & Hp).
    apply (linked_keys st ids ps F) in Hn as (id & Hin & Hi).
    exists id. split; [exact Hin|]. unfold find_product.
    rewrite (find_by_key product_pk id n _ Hi).
    destruct (find _ (products st)) as [q|]; [|contradiction].
    destruct Hp as [<- | []]. reflexivity.
  - intros (id & Hin & Hf).
    destruct (find_product_key st id p Hf) as (_ & n & Hn & Hi).
    exists n. split.
    + apply (linked_keys st ids ps F). exists id. split; assumption.
    + unfold find_product in Hf. rewrite (find_by_key product_pk id n _ Hi) in Hf.
      rewrite Hf. left. reflexivity.
Qed.


(** ** CreateOrder: the claims *)



(** With the modelled writes, which do not raise, every call returns: it
    succeeds, or it fails before the first write and leaves the store as it
    was. *)
Lemma create_order_returns (input : OrderInput.t) (st : Store) :
  exists r st',
    CreateOrder.mutate input st = (Ok r, st')
    /\ ((CreateOrder.success r = Some true
         /\ exists o, CreateOrder.order r = Some o /\ In o (orders st'))
        \/ (CreateOrder.success r = Some false
            /\ CreateOrder.order r = None
            /\ st' = st)).
Proof.
  destruct (mutate_outcomes input st)
    as [(field & message & H) | (c & ps & st' & _ & _ & H & Hin & _)].
  - exists (order_failure field message), st. split; [exact H|]. right. auto.
  - eexists _, st'. split; [exact H|]. left. split; [reflexivity|].
    exists (placed_order c ps st). split; [reflexivity | exact Hin].
Qed.

(** The handler answers every exception, so the decorator of the function
    has nothing to roll back: the decorated function is the [try]
    statement itself. *)
Lemma create_order_atomic_idle (w : OrderWrites) (input : OrderInput.t) (st : Store) :
  CreateOrder.mutate_with w input st
  = try_except (CreateOrder.body_with w input) CreateOrder.handler st.
Proof.
  unfold CreateOrder.mutate_with, atomic, try_except.
  destruct (CreateOrder.body_with w input st) as [[r | e] st']; [reflexivity|].
  rewrite order_handler_cases. reflexivity.
Qed.


(** C2: the order of a successful call is stored; it is linked, once
    each, to the stored rows the ids of the input resolve to, and its
    [total_amount] is the sum of the prices of these rows as stored at the
    call, with no rounding. *)
Theorem create_order_total_amount (input : OrderInput.t) (st : Store)
        (r : CreateOrder.t) (st' : Store) :
  CreateOrder.mutate input st = (Ok r, st') ->
  CreateOrder.success r = Some true ->
  exists (o : Order) (linked : list Product),
    CreateOrder.order r = Some o
    /\ In o (orders st')
    /\ products st' = products st
    /\ NoDup (order_products o)
    /\ map product_pk linked = map Some (order_products o)
    /\ (forall p, In p linked
                  <-> exists id, In id (OrderInput.product_ids input)
                                 /\ find_product st id = Some p)
    /\ order_total_amount o = Decimal_sum (map product_price linked)
    /\ Qeq (Decimal_value (order_total_amount o))
           (Qsum (map (fun p => Decimal_value (product_price p)) linked)).
Proof.
  intros Hm Hs.
  destruct (mutate_outcomes input st)
    as [(field & message & H) | (c & ps & st1 & _ & F & H & Hin & _ & Hp)];
    rewrite H in Hm; injection Hm as <- <-; [discriminate Hs|].
  exists (placed_order c ps st), (products_under st (nodup Nat.eq_dec (product_keys ps))).
  cbn [CreateOrder.order placed_order order_products order_total_amount].
  split; [reflexivity|]. split; [exact Hin|]. split; [exact Hp|].
  split; [apply NoDup_nodup|].
  split; [apply products_under_keys, (linked_keys_stored st _ ps F)|].
  split; [apply (products_under_links st _ ps F)|].
  rewrite linked_prices_under. split; [reflexivity|].
  rewrite Decimal_sum_value, map_map. reflexivity.
Qed.

(** The example of the specification: products priced 10.00 and 15.50
    give an order of 25.50. *)
Example create_order_example :
  fst (CreateOrder.mutate (OrderInput.make "1" ["1"; "2"] None) shop)
  = Ok (CreateOrder.make
          (Some (mkOrder (Some 1) (Some 1) [1; 2] (mkDecimal 2550 (-2))))
          None (Some true)).
Proof. reflexivity. Qed.

(** An id given twice is linked, and counted, once. *)
Example create_order_repeated_id :
  fst (CreateOrder.mutate (OrderInput.make "1" ["2"; "2"] None) shop)
  = Ok (CreateOrder.make
          (Some (mkOrder (Some 1) (Some 1) [2] (mkDecimal 1550 (-2))))
          None (Some true)).
Proof. reflexivity. Qed.

(** Ids are read as numbers: other spellings of the keys resolve too. *)
Example create_order_spelled_ids :
  fst (CreateOrder.mutate (OrderInput.make "01" [" 1"; "+2"] None) shop)
  = Ok (CreateOrder.make
          (Some (mkOrder (Some 1) (Some 1) [1; 2] (mkDecimal 2550 (-2))))
          None (Some true)).
Proof. reflexivity. Qed.

(** An id that is not a number is answered by the field its text gives. *)
Example create_order_customer_letters :
  CreateOrder.mutate (OrderInput.make "abc" ["1"] None) shop
  = (Ok (order_failure "non_field_errors"
                       "Field 'id' expected a number but got 'abc'."), shop).
Proof. reflexivity. Qed.

Example create_order_customer_named_product :
  CreateOrder.mutate (OrderInput.make "product-7" ["1"] None) shop
  = (Ok (order_failure "product_ids"
                       "Field 'id' expected a number but got 'product-7'."), shop).
Proof. reflexivity. Qed.

Example create_order_product_named_customer :
  CreateOrder.mutate (OrderInput.make "1" ["customer-7"] None) shop
  = (Ok (order_failure "customer_id"
                       "Field 'id' expected a number but got 'customer-7'."), shop).
Proof. reflexivity. Qed.

(** * Instances and counterexamples *)

Lemma spec_phone_dashes : spec_phone "123-456-7890".
Proof.
  exists EmptyString, "123", "-", "456", "-", "7890". unfold spec_digits, spec_separator.
  repeat split; auto.
Defined.

Lemma spec_phone_plus : spec_phone "+1234567890".
Proof.
  exists "+", "123", EmptyString, "456", EmptyString, "7890".
  unfold spec_digits, spec_separator. repeat split; auto.
Defined.

(** C1 at Alice, a row whose email has no [@], and Carol. *)
Lemma bulk_create_invalid_email_aborts_witness :
  email_ok EmailGrammar.dot_atom_host (CustomerInput.email bob_bad_email) = false
  /\ BulkCreateCustomers.mutate EmailGrammar.dot_atom_host
                                [Some alice; Some bob_bad_email; Some carol] empty_store
     = (Raise no_error_dict, empty_store).
Proof.
  split; [reflexivity|].
  apply (bulk_create_invalid_email_aborts EmailGrammar.dot_atom_host
           (Some alice) (Some carol) bob_bad_email empty_store).
  reflexivity.
Defined.

(** A second row that fails in [full_clean], on a duplicate email, is
    reported and the other rows are stored. *)
Example bulk_create_duplicate_row :
  fst (BulkCreateCustomers.mutate EmailGrammar.dot_atom_host
                                  [Some alice; Some alice; Some carol] empty_store)
  = Ok (BulkCreateCustomers.make
          [mkCustomer (Some 1) "Alice" "alice@example.com" "123-456-7890";
           mkCustomer (Some 2) "Carol" "carol@example.com" "+1234567890"]
          [ErrorType.make "email (row 2)" ["Customer with this Email already exists."]]
          false).
Proof. reflexivity. Qed.

(** A null row is reported under [phone] and the other rows are stored. *)
Example bulk_create_null_row :
  fst (BulkCreateCustomers.mutate EmailGrammar.dot_atom_host [Some alice; None; Some carol]
                                  empty_store)
  = Ok (BulkCreateCustomers.make
          [mkCustomer (Some 1) "Alice" "alice@example.com" "123-456-7890";
           mkCustomer (Some 2) "Carol" "carol@example.com" "+1234567890"]
          [ErrorType.make "phone (row 2)" ["'NoneType' object has no attribute 'phone'"]]
          false).
Proof. reflexivity. Qed.

(** C4 at a phone of five digits. *)
Lemma create_customer_validation_escapes_witness :
  phone_refused (CustomerInput.phone dave_bad_phone) = true
  /\ CreateCustomer.mutate EmailGrammar.dot_atom_host dave_bad_phone empty_store
     = (Raise no_error_dict, empty_store).
Proof.
  split; [reflexivity|].
  apply (create_customer_validation_escapes EmailGrammar.dot_atom_host
           dave_bad_phone empty_store).
  left. reflexivity.
Defined.

(** The same at an email without [@], for any grammar. *)
Example create_customer_bad_email (g : string -> bool) (st : Store) :
  CreateCustomer.mutate g bob_bad_email st = (Raise no_error_dict, st).
Proof. reflexivity. Qed.

(** C6 at Alice on the empty store. *)
Lemma create_customer_twice_witness :
  exists c st1,
    CreateCustomer.mutate EmailGrammar.dot_atom_host alice empty_store
    = (Ok (CreateCustomer.make (Some c) None (Some true)), st1)
    /\ customer_email c = CustomerInput.email alice
    /\ CreateCustomer.mutate EmailGrammar.dot_atom_host alice st1
       = (Raise unexpected_success, st1)
    /\ count_email (CustomerInput.email alice) st1 = 1.
Proof.
  apply (create_customer_twice EmailGrammar.dot_atom_host alice empty_store);
    reflexivity.
Defined.

(** C8 at Carol on the shop. *)
Lemma create_customer_succeeds_witness :
  exists c st',
    CreateCustomer.mutate EmailGrammar.dot_atom_host carol shop
    = (Ok (CreateCustomer.make (Some c) None (Some true)), st')
    /\ customer_email c = "carol@example.com"
    /\ customer_name c = "Carol"
    /\ customer_phone c = "+1234567890"
    /\ customers st' = (customers shop ++ [c])%list.
Proof.
  apply (create_customer_succeeds EmailGrammar.dot_atom_host
           "Carol" "carol@example.com" "+1234567890" shop).
  - reflexivity.
  - exact spec_phone_plus.
  - reflexivity.
Defined.

(** C8 as stated fails on an email that is stored: Alice's email is valid
    and her phone has the format, the shop has her, and the call does not
    succeed. *)
Lemma create_customer_known_email :
  email_ok EmailGrammar.dot_atom_host (CustomerInput.email alice) = true
  /\ spec_phone "123-456-7890"
  /\ CreateCustomer.mutate EmailGrammar.dot_atom_host alice shop
     = (Raise unexpected_success, shop)
  /\ ~ (forall (g : string -> bool) (name email p : string) (st : Store),
          email_ok g email = true ->
          spec_phone p ->
          exists c st',
            CreateCustomer.mutate g (CustomerInput.make name email (Some p)) st
            = (Ok (CreateCustomer.make (Some c) None (Some true)), st')
            /\ customer_email c = email).
Proof.
  split; [reflexivity|]. split; [exact spec_phone_dashes|]. split; [reflexivity|].
  intros H.
  destruct (H EmailGrammar.dot_atom_host "Alice" "alice@example.com" "123-456-7890" shop
              eq_refl spec_phone_dashes) as (c & st' & Hm & _).
  discriminate Hm.
Qed.

(** C7 at a price of -5.00 and at a stock of -3. *)
Lemma create_product_rejects_witness :
  CreateProduct.mutate (ProductInput.make "Widget" (mkDecimal (-500) (-2)) None) empty_store
  = (Ok (product_failure "price" "['Price must be positive']"), empty_store)
  /\ CreateProduct.mutate (ProductInput.make "Widget" (mkDecimal 1000 (-2)) (Some (-3)%Z))
                          empty_store
     = (Ok (product_failure "stock" "['Stock cannot be negative']"), empty_store).
Proof.
  split.
  - apply (proj1 (create_product_rejects
                    (ProductInput.make "Widget" (mkDecimal (-500) (-2)) None) empty_store)).
    cbn. lia.
  - apply (proj2 (create_product_rejects
                    (ProductInput.make "Widget" (mkDecimal 1000 (-2)) (Some (-3)%Z))
                    empty_store) (-3)%Z); [reflexivity | reflexivity | lia].
Defined.

(** C7 as stated fails on a negative stock with a price of zero: the
    price is checked first and the error has field [price]. *)
Lemma create_product_price_before_stock :
  CreateProduct.mutate (ProductInput.make "Widget" (mkDecimal 0 0) (Some (-1)%Z)) empty_store
  = (Ok (product_failure "price" "['Price must be positive']"), empty_store)
  /\ ~ (forall (input : ProductInput.t) (st : Store) (n : Z),
          ProductInput.stock input = Some n ->
          (n < 0)%Z ->
          exists message,
            CreateProduct.mutate input st = (Ok (product_failure "stock" message), st)).
Proof.
  split; [reflexivity|].
  intros H.
  destruct (H (ProductInput.make "Widget" (mkDecimal 0 0) (Some (-1)%Z)) empty_store (-1)%Z
              eq_refl ltac:(lia)) as (message & Hm).
  discriminate Hm.
Qed.








(** C2 at the two products of the shop. *)
Lemma create_order_total_amount_witness :
  exists r st',
    CreateOrder.mutate (OrderInput.make "1" ["1"; "2"] None) shop = (Ok r, st')
    /\ CreateOrder.success r = Some true
    /\ exists (o : Order) (linked : list Product),
         CreateOrder.order r = Some o
         /\ In o (orders st')
         /\ products st' = products shop
         /\ NoDup (order_products o)
         /\ map product_pk linked = map Some (order_products o)
         /\ (forall p, In p linked
                       <-> exists id, In id ["1"; "2"] /\ find_product shop id = Some p)
         /\ order_total_amount o = Decimal_sum (map product_price linked)
         /\ Qeq (Decimal_value (order_total_amount o))
                (Qsum (map (fun p => Decimal_value (product_price p)) linked)).
Proof.
  eexists. eexists.
  split; [reflexivity|]. split; [reflexivity|].
  apply (create_order_total_amount (OrderInput.make "1" ["1"; "2"] None) shop);
    reflexivity.
Defined.
(** * Further properties *)

(** ** The matcher, construct by construct *)

Lemma run_class (p : ascii -> bool) (s : string) (st : bool) (k : string -> bool -> bool) :
  Re.run (Re.Class p) s st k = true
  <-> exists c t, s = String c t /\ p c = true /\ k t false = true.
Proof.
  cbn [Re.run]. destruct s as [|c t].
  - split; [discriminate | intros (c & t & E & _); discriminate E].
  - rewrite andb_true_iff. split.
    + intros [Hp Hk]. exists c, t. auto.
    + intros (c' & t' & E & Hp & Hk). injection E as -> ->. auto.
Qed.

Lemma run_times_S (n : nat) (r : Re.pattern) (s : string) (st : bool)
      (k : string -> bool -> bool) :
  Re.run (Re.Times (S n) r) s st k
  = Re.run r s st (fun t st' => Re.run (Re.Times n r) t st' k).
Proof. reflexivity. Qed.

(** [n] characters of a class, for [n] above zero. *)
Lemma run_times_class (p : ascii -> bool) (n : nat) :
  forall (s : string) (st : bool) (k : string -> bool -> bool),
    Re.run (Re.Times (S n) (Re.Class p)) s st k = true
    <-> exists a t, s = a ++ t /\ String.length a = S n
                    /\ Py.all_chars p a = true /\ k t false = true.
Proof.
  induction n as [|n IH]; intros s st k; rewrite run_times_S, run_class.
  - split.
    + intros (c & t & -> & Hp & Hk). exists (String c EmptyString), t.
      cbn. rewrite Hp. auto.
    + intros (a & t & -> & Hl & Ha & Hk).
      destruct a as [|c [|d a]]; try discriminate Hl.
      cbn in Ha. rewrite andb_true_r in Ha. exists c, t. auto.
  - split.
    + intros (c & t & -> & Hp & Hk). apply IH in Hk as (a & t' & -> & Hl & Ha & Hk).
      exists (String c a), t'. cbn. rewrite Hp, Hl, Ha. auto.
    + intros (a & t & -> & Hl & Ha & Hk).
      destruct a as [|c a]; [discriminate Hl|].
      cbn in Ha. apply andb_true_iff in Ha as [Hp Ha]. injection Hl as Hl.
      exists c, (a ++ t). split; [reflexivity|]. split; [exact Hp|].
      apply IH. exists a, t. auto.
Qed.

Lemma run_optional_class (p : ascii -> bool) (s : string) (st : bool)
      (k : string -> bool -> bool) :
  Re.run (Re.Optional (Re.Class p)) s st k = true
  <-> (exists c t, s = String c t /\ p c = true /\ k t false = true)
      \/ k s st = true.
Proof.
  change (Re.run (Re.Optional (Re.Class p)) s st k)
    with (Re.run (Re.Class p) s st k || k s st).
  rewrite orb_true_iff, run_class. reflexivity.
Qed.

Lemma at_dollar_end (s : string) :
  Re.at_dollar s = true <-> s = EmptyString \/ s = String Re.newline EmptyString.
Proof.
  destruct s as [|c [|d s]]; cbn.
  - split; auto.
  - rewrite Ascii.eqb_eq. split.
    + intros ->. right. reflexivity.
    + intros [E | E]; [discriminate E | injection E as ->; reflexivity].
  - split; [discriminate | intros [E | E]; discriminate E].
Qed.

Lemma run_seq (r1 r2 : Re.pattern) (s : string) (st : bool) (k : string -> bool -> bool) :
  Re.run (Re.Seq r1 r2) s st k = Re.run r1 s st (fun t st' => Re.run r2 t st' k).
Proof. reflexivity. Qed.

(** The same with the rest of the text described by a proposition. *)
Lemma times_then (p : ascii -> bool) (n : nat) (k : string -> bool -> bool)
      (K : string -> Prop) :
  (forall t st, k t st = true <-> K t) ->
  forall s st,
    Re.run (Re.Times (S n) (Re.Class p)) s st k = true
    <-> exists a t, s = a ++ t /\ spec_digits_of p (S n) a /\ K t.
Proof.
  intros HK s st. rewrite run_times_class. unfold spec_digits_of. split.
  - intros (a & t & E & Hl & Ha & Hk). exists a, t. rewrite <- (HK t false). auto.
  - intros (a & t & E & [Hl Ha] & Hk). exists a, t. rewrite (HK t false). auto.
Qed.

Lemma optional_then (p : ascii -> bool) (k : string -> bool -> bool) (K : string -> Prop) :
  (forall t st, k t st = true <-> K t) ->
  forall s st,
    Re.run (Re.Optional (Re.Class p)) s st k = true
    <-> exists o t, s = o ++ t
                    /\ (o = EmptyString \/ exists c, o = String c EmptyString /\ p c = true)
                    /\ K t.
Proof.
  intros HK s st. rewrite run_optional_class. split.
  - intros [(c & t & -> & Hp & Hk) | Hk].
    + exists (String c EmptyString), t. rewrite <- (HK t false).
      split; [reflexivity|]. split; [right; exists c; auto | exact Hk].
    + exists EmptyString, s. rewrite <- (HK s st). auto.
  - intros (o & t & -> & [-> | (c & -> & Hp)] & Hk).
    + right. apply HK, Hk.
    + left. exists c, t. rewrite (HK t false). auto.
Qed.

(** ** The language of the phone pattern *)

(** X1: the phone check of both customer mutations accepts exactly the
    texts made of an optional [+], three digits, an optional separator,
    three digits, an optional separator and four digits, with an optional
    newline at the end; a separator is [-], [.] or a white-space
    character. *)
Theorem phone_regex_language (p : string) :
  Re.rmatch phone_regex p = true <-> phone_shape p.
Proof.
  unfold Re.rmatch, phone_regex, phone_shape.
  set (k0 := fun (_ : string) (_ : bool) => true).
  assert (S7 : forall t st, Re.run Re.Dollar t st k0 = true
                            <-> (t = EmptyString \/ t = String Re.newline EmptyString)).
  { intros t st. cbn [Re.run]. unfold k0. rewrite andb_true_r. apply at_dollar_end. }
  pose proof (fun t st => times_then Re.digit 3 _ _ S7 t st) as S6.
  pose proof (fun t st => optional_then phone_sep _ _
                            (fun t st => S6 t st) t st) as S5.
  pose proof (fun t st => times_then Re.digit 2 _ _ (fun t st => S5 t st) t st) as S4.
  pose proof (fun t st => optional_then phone_sep _ _
                            (fun t st => S4 t st) t st) as S3.
  pose proof (fun t st => times_then Re.digit 2 _ _ (fun t st => S3 t st) t st) as S2.
  pose proof (fun t st => optional_then (Ascii.eqb "+") _ _
                            (fun t st => S2 t st) t st) as S1.
  etransitivity; [exact (S1 p true)|].
  unfold spec_digits_of, spec_digits, pattern_separator. split.
  - intros (plus & t1 & -> & Hplus & a & t2 & -> & Ha & s1 & t3 & -> & Hs1
            & b & t4 & -> & Hb & s2 & t5 & -> & Hs2 & c & e & -> & Hc & He).
    exists plus, a, s1, b, s2, c, e. repeat split; try tauto.
    destruct Hplus as [-> | (ch & -> & Hch)]; [left; reflexivity | right].
    apply Ascii.eqb_eq in Hch. subst ch. reflexivity.
  - intros (plus & a & s1 & b & s2 & c & e & -> & Hplus & Ha & Hs1 & Hb & Hs2 & Hc & He).
    exists plus, (a ++ s1 ++ b ++ s2 ++ c ++ e). split; [reflexivity|]. split.
    { destruct Hplus as [-> | ->]; [left; reflexivity | right].
      exists "+"%char. split; reflexivity. }
    exists a, (s1 ++ b ++ s2 ++ c ++ e). split; [reflexivity|]. split; [exact Ha|].
    exists s1, (b ++ s2 ++ c ++ e). split; [reflexivity|]. split; [exact Hs1|].
    exists b, (s2 ++ c ++ e). split; [reflexivity|]. split; [exact Hb|].
    exists s2, (c ++ e). split; [reflexivity|]. split; [exact Hs2|].
    exists c, e. auto.
Qed.

Lemma length_append (a b : string) :
  String.length (a ++ b) = String.length a + String.length b.
Proof. induction a as [|c a IH]; cbn; [reflexivity | rewrite IH; reflexivity]. Qed.

(** X2: a phone the check accepts has ten to fourteen characters. *)
Theorem phone_regex_length (p : string) :
  Re.rmatch phone_regex p = true ->
  (10 <= String.length p <= 14)%nat.
Proof.
  intros H. apply phone_regex_language in H.
  destruct H as (plus & a & s1 & b & s2 & c & e & -> & Hplus & [La _] & Hs1
                 & [Lb _] & Hs2 & [Lc _] & He).
  rewrite !length_append, La, Lb, Lc.
  assert (String.length plus <= 1)%nat by (destruct Hplus as [-> | ->]; cbn; lia).
  assert (String.length s1 <= 1)%nat by (destruct Hs1 as [-> | (ch & -> & _)]; cbn; lia).
  assert (String.length s2 <= 1)%nat by (destruct Hs2 as [-> | (ch & -> & _)]; cbn; lia).
  assert (String.length e <= 1)%nat by (destruct He as [-> | ->]; cbn; lia).
  lia.
Qed.

(** ** Tables and keys *)

Lemma find_app {A : Type} (f : A -> bool) (l l' : list A) :
  find f (l ++ l') = match find f l with
                     | Some x => Some x
                     | None => find f l'
                     end.
Proof.
  induction l as [|x l IH]; cbn; [reflexivity|]. destruct (f x); [reflexivity | exact IH].
Qed.

(** No row of a table in order has a key above the sequence. *)
Lemma keys_ok_fresh {A : Type} (pk : A -> option nat) (seq : nat) (rows : list A) :
  keys_ok pk seq rows ->
  forall r, In r rows -> pk r <> Some (S seq).
Proof.
  intros [Hb _] r Hin E. rewrite Forall_forall in Hb.
  destruct (Hb r Hin) as (n & Hn & Hle). rewrite Hn in E. injection E as ->. lia.
Qed.

Lemma keys_ok_app {A : Type} (pk : A -> option nat) (seq : nat) (rows : list A) (r : A) :
  keys_ok pk seq rows ->
  pk r = Some (S seq) ->
  keys_ok pk (S seq) (rows ++ [r]).
Proof.
  intros H Hr. pose proof (keys_ok_fresh pk seq rows H) as Hf. destruct H as [Hb Hd].
  split.
  - apply Forall_app. split.
    + eapply Forall_impl; [|exact Hb]. intros x (n & Hn & Hle). exists n. split; [exact Hn | lia].
    + constructor; [|constructor]. exists (S seq). auto.
  - rewrite map_app. cbn [map]. apply NoDup_app; [exact Hd | repeat constructor; intros [] |].
    intros k Hk [E | []]. apply in_map_iff in Hk as (x & Ex & Hx).
    apply (Hf x Hx). congruence.
Qed.

Lemma find_key_none {A : Type} (pk : A -> option nat) (seq : nat) (rows : list A) :
  keys_ok pk seq rows ->
  find (fun r => pk_matches (pk r) (Py.str_of_nat (S seq))) rows = None.
Proof.
  intros H. destruct (find _ rows) as [r|] eqn:E; [|reflexivity].
  apply find_some in E as [Hin Hm]. exfalso.
  apply (keys_ok_fresh pk seq rows H r Hin).
  apply pk_matches_key in Hm as (n & Hn & Hi). rewrite int_str_of_nat in Hi.
  assert (S seq = n) by (apply Nat2Z.inj; congruence). congruence.
Qed.

Lemma existsb_has_email (email : string) (cs : list Customer) :
  existsb (has_email email) cs = existsb (String.eqb email) (map customer_email cs).
Proof.
  induction cs as [|c cs IH]; cbn; [reflexivity|].
  unfold has_email at 1. rewrite String.eqb_sym, IH. reflexivity.
Qed.

Lemma existsb_eqb_in (e : string) (l : list string) :
  existsb (String.eqb e) l = false -> ~ In e l.
Proof.
  intros H Hin. induction l as [|x l IH]; [contradiction|].
  cbn in H. apply orb_false_iff in H as [Hx Hl].
  destruct Hin as [-> | Hin]; [rewrite String.eqb_refl in Hx; discriminate Hx | auto].
Qed.

(** The orders of a store keep their shape when rows are added to the
    other two tables. *)
Lemma linked_prices_more (st st' : Store) (extra : list Product) (links : list nat) :
  products st' = (products st ++ extra)%list ->
  (forall n, In n links -> exists p, In p (products st) /\ product_pk p = Some n) ->
  linked_prices st' links = linked_prices st links.
Proof.
  intros Hp Hl. unfold linked_prices. rewrite Hp.
  induction links as [|n links IH]; [reflexivity|].
  cbn [flat_map]. rewrite IH by (intros m Hm; apply Hl; right; exact Hm).
  f_equal. rewrite find_app.
  destruct (Hl n (or_introl eq_refl)) as (p & Hin & Hn).
  destruct (find _ (products st)) eqn:E; [reflexivity|].
  pose proof (find_none _ _ E p Hin) as Hf. cbn in Hf.
  rewrite Hn, Nat.eqb_refl in Hf. discriminate Hf.
Qed.

Lemma order_ok_more (st st' : Store) (cs : list Customer) (ps : list Product) (o : Order) :
  customers st' = (customers st ++ cs)%list ->
  products st' = (products st ++ ps)%list ->
  order_ok st o -> order_ok st' o.
Proof.
  intros Hc Hp (Hne & Hnd & Hl & (c & n & Hin & Hn & Ho) & Ht).
  repeat split; try assumption.
  - intros m Hm. destruct (Hl m Hm) as (p & Hpin & Hpn). exists p.
    rewrite Hp. split; [apply in_or_app; left; exact Hpin | exact Hpn].
  - exists c, n. rewrite Hc. split; [apply in_or_app; left; exact Hin | auto].
  - rewrite Ht. symmetry. f_equal. apply (linked_prices_more st st' ps); assumption.
Qed.

(** A customer with a new email under the next key keeps the store in
    order. *)
Lemma with_customer_ok (input : CustomerInput.t) (st : Store) :
  store_ok st ->
  existsb (has_email (CustomerInput.email input)) (customers st) = false ->
  store_ok (with_customer (new_customer input st) st).
Proof.
  intros (Hc & Hp & Ho & He & Hpo & Hoo) Hn.
  repeat split; try (apply Hp); try (apply Ho); try assumption.
  - apply (keys_ok_app customer_pk _ _ _ Hc). reflexivity.
  - apply (keys_ok_app customer_pk _ _ _ Hc). reflexivity.
  - cbn [customers with_customer]. rewrite map_app. cbn [map new_customer customer_email].
    apply NoDup_app; [exact He | repeat constructor; intros [] |].
    intros e Hin [<- | []].
    rewrite existsb_has_email in Hn. apply (existsb_eqb_in _ _ Hn Hin).
  - cbn [orders with_customer]. eapply Forall_impl; [|exact Hoo].
    intros o. apply (order_ok_more st _ [new_customer input st] []);
      cbn; [reflexivity | rewrite app_nil_r; reflexivity].
Qed.

Lemma store_row_ok (input : CustomerInput.t) (st : Store) :
  store_ok st -> store_ok (store_row st input).
Proof.
  intros H. unfold store_row.
  destruct (existsb _ (customers st)) eqn:E; [exact H | apply with_customer_ok; assumption].
Qed.

(** ** CreateCustomer, in full *)

Section CustomerOutcomes.

Variable email_grammar : string -> bool.

Lemma customer_mutate_cases (input : CustomerInput.t) (st : Store) :
  CreateCustomer.mutate email_grammar input st =
    if row_refused email_grammar input then (Raise no_error_dict, st)
    else if existsb (has_email (CustomerInput.email input)) (customers st)
    then (Raise unexpected_success, st)
    else (Ok (CreateCustomer.make (Some (new_customer input st)) None (Some true)),
          with_customer (new_customer input st) st).
Proof.
  unfold CreateCustomer.mutate, try_except, row_refused. rewrite body_cases.
  destruct (phone_refused (CustomerInput.phone input)); [reflexivity|].
  destruct (email_ok email_grammar (CustomerInput.email input)); [|reflexivity].
  destruct (existsb _ (customers st)); reflexivity.
Qed.

Lemma customer_mutate_store (input : CustomerInput.t) (st : Store) :
  row_refused email_grammar input = false ->
  snd (CreateCustomer.mutate email_grammar input st) = store_row st input.
Proof.
  intros H. rewrite customer_mutate_cases, H. unfold store_row.
  destruct (existsb _ (customers st)); reflexivity.
Qed.

(** X3: [createCustomer] has three outcomes and none of them is an error
    envelope: it stores the customer and returns it with [success=True],
    or it raises [AttributeError], or it raises [TypeError]; when it
    raises, the store is as it was. *)
Theorem create_customer_outcomes (input : CustomerInput.t) (st : Store) :
  (exists c,
     CreateCustomer.mutate email_grammar input st
     = (Ok (CreateCustomer.make (Some c) None (Some true)), with_customer c st)
     /\ customer_pk c = Some (S (customer_seq st))
     /\ customer_name c = CustomerInput.name input
     /\ customer_email c = CustomerInput.email input
     /\ customer_phone c = phone_or_empty (CustomerInput.phone input))
  \/ CreateCustomer.mutate email_grammar input st = (Raise no_error_dict, st)
  \/ CreateCustomer.mutate email_grammar input st = (Raise unexpected_success, st).
Proof.
  rewrite customer_mutate_cases.
  destruct (row_refused email_grammar input); [right; left; reflexivity|].
  destruct (existsb _ (customers st)); [right; right; reflexivity|].
  left. exists (new_customer input st). repeat split.
Qed.

(** X4: a phone that is absent or empty is not checked, and the customer
    is stored with the empty text as phone. *)
Theorem create_customer_without_phone (name email : string) (phone : option string)
        (st : Store) :
  phone = None \/ phone = Some EmptyString ->
  email_ok email_grammar email = true ->
  existsb (has_email email) (customers st) = false ->
  exists c st',
    CreateCustomer.mutate email_grammar (CustomerInput.make name email phone) st
    = (Ok (CreateCustomer.make (Some c) None (Some true)), st')
    /\ customer_phone c = EmptyString
    /\ customer_email c = email
    /\ In c (Query.resolve_customers st').
Proof.
  intros Hp He Hn.
  set (input := CustomerInput.make name email phone).
  exists (new_customer input st), (with_customer (new_customer input st) st).
  assert (Hr : row_refused email_grammar input = false).
  { unfold row_refused. cbn [input CustomerInput.phone CustomerInput.email].
    rewrite He. destruct Hp as [-> | ->]; reflexivity. }
  rewrite customer_mutate_cases, Hr. cbn [input CustomerInput.email]. rewrite Hn.
  split; [reflexivity|]. split; [destruct Hp as [-> | ->]; reflexivity|].
  split; [reflexivity|].
  unfold Query.resolve_customers. cbn. apply in_or_app. right. left. reflexivity.
Qed.

(** X5: a customer that was created is found under its key, as printed,
    and listed after the customers that were there; the ids that resolved
    before resolve to the same customers. *)
Theorem create_customer_then_find (input : CustomerInput.t) (st : Store)
        (c : Customer) (st' : Store) :
  keys_ok customer_pk (customer_seq st) (customers st) ->
  CreateCustomer.mutate email_grammar input st
  = (Ok (CreateCustomer.make (Some c) None (Some true)), st') ->
  find_customer st' (Py.str_of_nat (S (customer_seq st))) = Some c
  /\ Query.resolve_customers st' = (Query.resolve_customers st ++ [c])%list
  /\ (forall id c0, find_customer st id = Some c0 -> find_customer st' id = Some c0).
Proof.
  intros Hk Hm. rewrite customer_mutate_cases in Hm.
  destruct (row_refused email_grammar input); [discriminate Hm|].
  destruct (existsb _ (customers st)); [discriminate Hm|].
  injection Hm as <- <-. unfold find_customer, Query.resolve_customers.
  cbn [customers with_customer]. split; [|split; [reflexivity|]].
  - rewrite find_app, (find_key_none customer_pk _ _ Hk).
    cbn [find new_customer customer_pk]. rewrite pk_matches_printed. reflexivity.
  - intros id c0 H. rewrite find_app, H. reflexivity.
Qed.

(** X6: [createCustomer] keeps a store in order: keys, the uniqueness of
    the emails and the orders are as well formed after the call as
    before, whatever the outcome. *)
Theorem create_customer_keeps_store (input : CustomerInput.t) (st : Store) :
  store_ok st ->
  store_ok (snd (CreateCustomer.mutate email_grammar input st)).
Proof.
  intros H. rewrite customer_mutate_cases.
  destruct (row_refused email_grammar input); [exact H|].
  destruct (existsb _ (customers st)) eqn:E; [exact H|].
  apply with_customer_ok; assumption.
Qed.

End CustomerOutcomes.

(** ** BulkCreateCustomers, in full *)

Section BulkOutcomes.

Variable email_grammar : string -> bool.

Lemma bulk_handler_duplicate_row (idx : nat) (cs : list Customer)
      (es : list ErrorType.t) (b : bool) (st : Store) :
  BulkCreateCustomers.handler idx (cs, es, b) duplicate_email st
  = (Ok (cs, (es ++ [duplicate_row idx])%list, false), st).
Proof. reflexivity. Qed.

Lemma row_error_later (x : option CustomerInput.t) (rest : list (option CustomerInput.t))
      (idx k : nat) (e : ErrorType.t) :
  row_error rest (S idx) k e -> row_error (x :: rest) idx k e.
Proof.
  intros (Hk & H). split; [lia|].
  replace (k - idx)%nat with (S (k - S idx)) by lia. exact H.
Qed.

Lemma existsb_refused_given (inputs : list (option CustomerInput.t)) :
  existsb (refused email_grammar) inputs
  = existsb (row_refused email_grammar) (given inputs).
Proof.
  induction inputs as [|[input|] rest IH]; [reflexivity| |exact IH].
  cbn [existsb refused given flat_map app]. rewrite IH. reflexivity.
Qed.

(** The loop on rows the two checks accept: what it returns, what it
    stores and how the errors are tagged. *)
Lemma loop_accounts (inputs : list (option CustomerInput.t)) :
  forall (idx : nat) (cs0 : list Customer) (es0 : list ErrorType.t) (b : bool) (st : Store),
    existsb (refused email_grammar) inputs = false ->
    exists cs es,
      BulkCreateCustomers.loop email_grammar idx inputs (cs0, es0, b) st
      = (Ok ((cs0 ++ cs)%list, (es0 ++ es)%list,
             b && match es with [] => true | _ => false end),
         fold_left store_row (given inputs) st)
      /\ customers (fold_left store_row (given inputs) st) = (customers st ++ cs)%list
      /\ List.length cs + List.length es = List.length inputs
      /\ Forall (fun e => exists k, row_error inputs idx k e) es
      /\ map customer_email cs
         = fresh_emails (map customer_email (customers st))
                        (map CustomerInput.email (given inputs)).
Proof.
  induction inputs as [|[input|] rest IH]; intros idx cs0 es0 b st H.
  - exists [], []. cbn. rewrite !app_nil_r, andb_true_r. auto.
  - cbn [existsb refused] in H. apply orb_false_iff in H as [H1 H2].
    pose proof H1 as Hr.
    unfold row_refused in H1. apply orb_false_iff in H1 as [Hp He].
    apply negb_false_iff in He.
    cbn [BulkCreateCustomers.loop BulkCreateCustomers.attempt given flat_map app
         fold_left map fresh_emails].
    fold (given rest).
    unfold bind at 1, try_except, bind at 1. rewrite row_cases, Hp, He.
    rewrite <- existsb_has_email.
    destruct (existsb (has_email (CustomerInput.email input)) (customers st)) eqn:E.
    + assert (Hs : store_row st input = st) by (unfold store_row; rewrite E; reflexivity).
      rewrite Hs, bulk_handler_duplicate_row.
      destruct (IH (S idx) cs0 (es0 ++ [duplicate_row idx])%list false st H2)
        as (cs & es & -> & Hst & Hlen & Htag & Hem).
      exists cs, (duplicate_row idx :: es). rewrite <- app_assoc. cbn [app].
      rewrite andb_false_r. split; [reflexivity|]. split; [exact Hst|].
      split; [cbn; lia|]. split; [|exact Hem].
      constructor.
      * exists idx. split; [lia|]. right. rewrite Nat.sub_diag. cbn [nth_error].
        split; [exists input; reflexivity | reflexivity].
      * eapply Forall_impl; [|exact Htag]. intros e (k & Hk).
        exists k. apply row_error_later, Hk.
    + assert (Hs : store_row st input = with_customer (new_customer input st) st)
        by (unfold store_row; rewrite E; reflexivity).
      rewrite Hs. cbn [ret].
      destruct (IH (S idx) (cs0 ++ [new_customer input st])%list es0 b
                   (with_customer (new_customer input st) st) H2)
        as (cs & es & -> & Hst & Hlen & Htag & Hem).
      exists (new_customer input st :: cs), es. rewrite <- app_assoc. cbn [app].
      split; [reflexivity|]. split.
      { rewrite Hst. cbn [customers with_customer]. rewrite <- app_assoc. reflexivity. }
      split; [cbn; lia|]. split.
      { eapply Forall_impl; [|exact Htag]. intros e (k & Hk).
        exists k. apply row_error_later, Hk. }
      cbn [map new_customer customer_email]. f_equal.
      rewrite Hem. cbn [customers with_customer]. rewrite map_app. reflexivity.
  - cbn [existsb refused orb] in H.
    cbn [BulkCreateCustomers.loop BulkCreateCustomers.attempt given flat_map app].
    fold (given rest).
    unfold bind at 1, try_except, bind at 1, raise.
    rewrite (bulk_handler_null_row idx cs0 es0 b st).
    destruct (IH (S idx) cs0 (es0 ++ [null_row idx])%list false st H)
      as (cs & es & -> & Hst & Hlen & Htag & Hem).
    exists cs, (null_row idx :: es). rewrite <- app_assoc. cbn [app].
    rewrite andb_false_r. split; [reflexivity|]. split; [exact Hst|].
    split; [cbn; lia|]. split; [|exact Hem].
    constructor.
    + exists idx. split; [lia|]. left. rewrite Nat.sub_diag. split; reflexivity.
    + eapply Forall_impl; [|exact Htag]. intros e (k & Hk).
      exists k. apply row_error_later, Hk.
Qed.

(** A call that returns has no row that the two checks refuse. *)
Lemma bulk_returns_accepted (inputs : list (option CustomerInput.t)) (st : Store)
      (r : BulkCreateCustomers.t) (st' : Store) :
  BulkCreateCustomers.mutate email_grammar inputs st = (Ok r, st') ->
  existsb (refused email_grammar) inputs = false.
Proof.
  intros H. destruct (existsb _ inputs) eqn:E; [|reflexivity].
  rewrite (bulk_refused_row_aborts email_grammar inputs st E) in H. discriminate H.
Qed.

Lemma bulk_mutate_accounts (inputs : list (option CustomerInput.t)) (st : Store) :
  existsb (refused email_grammar) inputs = false ->
  exists cs es,
    BulkCreateCustomers.mutate email_grammar inputs st
    = (Ok (BulkCreateCustomers.make cs es (match es with [] => true | _ => false end)),
       fold_left store_row (given inputs) st)
    /\ customers (fold_left store_row (given inputs) st) = (customers st ++ cs)%list
    /\ List.length cs + List.length es = List.length inputs
    /\ Forall (fun e => exists k, row_error inputs 0 k e) es
    /\ map customer_email cs
       = fresh_emails (map customer_email (customers st))
                      (map CustomerInput.email (given inputs)).
Proof.
  intros H. destruct (loop_accounts inputs 0 [] [] true st H)
    as (cs & es & Hl & Hst & Hlen & Htag & Hem).
  exists cs, es. unfold BulkCreateCustomers.mutate, atomic, bind. rewrite Hl.
  cbn [app andb]. repeat split; assumption.
Qed.

(** X7: one row that the phone check or the email check refuses, at any
    place in the list, makes the whole call raise [AttributeError], and
    the transaction leaves the store as it was before the call: no row of
    the batch is stored. *)
Theorem bulk_create_refused_row (inputs : list (option CustomerInput.t)) (st : Store) :
  existsb (refused email_grammar) inputs = true ->
  BulkCreateCustomers.mutate email_grammar inputs st = (Raise no_error_dict, st).
Proof.
  intros H. unfold BulkCreateCustomers.mutate, atomic, bind.
  destruct (loop_aborts email_grammar inputs 0 ([], [], true) st H) as [st' ->].
  reflexivity.
Qed.


(** X9: of the rows of a call that returns, the ones stored are those
    whose email is not stored yet, each email at its first row: an email
    given twice in the list is stored once. *)
Theorem bulk_create_first_occurrence (inputs : list (option CustomerInput.t)) (st : Store)
        (r : BulkCreateCustomers.t) (st' : Store) :
  BulkCreateCustomers.mutate email_grammar inputs st = (Ok r, st') ->
  map customer_email (BulkCreateCustomers.customers r)
  = fresh_emails (map customer_email (customers st))
                 (map CustomerInput.email (given inputs)).
Proof.
  intros H. pose proof (bulk_returns_accepted inputs st r st' H) as Ha.
  destruct (bulk_mutate_accounts inputs st Ha) as (cs & es & Hm & _ & _ & _ & Hem).
  rewrite Hm in H. injection H as <- <-. exact Hem.
Qed.

Lemma fold_store_rows (inputs : list CustomerInput.t) :
  forall st,
    existsb (row_refused email_grammar) inputs = false ->
    fold_left (fun s input => snd (CreateCustomer.mutate email_grammar input s)) inputs st
    = fold_left store_row inputs st.
Proof.
  induction inputs as [|input rest IH]; intros st H; [reflexivity|].
  cbn [existsb] in H. apply orb_false_iff in H as [H1 H2].
  cbn [fold_left]. rewrite (customer_mutate_store email_grammar input st H1).
  apply IH, H2.
Qed.

(** X10: when the bulk call returns, the store it leaves is the store
    that one [createCustomer] call per row that is not null, in the order
    of the list, leaves. *)
Theorem bulk_create_as_single_calls (inputs : list (option CustomerInput.t)) (st : Store)
        (r : BulkCreateCustomers.t) (st' : Store) :
  BulkCreateCustomers.mutate email_grammar inputs st = (Ok r, st') ->
  st' = fold_left (fun s input => snd (CreateCustomer.mutate email_grammar input s))
                  (given inputs) st.
Proof.
  intros H. pose proof (bulk_returns_accepted inputs st r st' H) as Ha.
  destruct (bulk_mutate_accounts inputs st Ha) as (cs & es & Hm & _).
  rewrite Hm in H. injection H as _ <-. symmetry. apply fold_store_rows.
  rewrite <- existsb_refused_given. exact Ha.
Qed.

Lemma fold_store_row_ok (inputs : list CustomerInput.t) :
  forall st, store_ok st -> store_ok (fold_left store_row inputs st).
Proof.
  induction inputs as [|input rest IH]; intros st H; [exact H|].
  cbn [fold_left]. apply IH, store_row_ok, H.
Qed.

(** X11: [bulkCreateCustomers] keeps a store in order, whether it returns
    or raises. *)
Theorem bulk_create_keeps_store (inputs : list (option CustomerInput.t)) (st : Store) :
  store_ok st ->
  store_ok (snd (BulkCreateCustomers.mutate email_grammar inputs st)).
Proof.
  intros H. destruct (existsb (refused email_grammar) inputs) eqn:E.
  - rewrite (bulk_refused_row_aborts email_grammar inputs st E). exact H.
  - destruct (bulk_mutate_accounts inputs st E) as (cs & es & -> & _).
    apply fold_store_row_ok, H.
Qed.

End BulkOutcomes.

(** ** CreateProduct, in full *)

Lemma float_le_zero_positive (d : Decimal) :
  float_le_zero d = false -> (0 < coefficient d)%Z.
Proof.
  intros H. destruct (Z_lt_le_dec 0 (coefficient d)) as [Hpos | Hle]; [exact Hpos|].
  rewrite (float_le_zero_nonpositive d Hle) in H. discriminate H.
Qed.

Lemma stock_accepted (stock : option Z) :
  stock_truthy stock && (stock_or_zero stock <? 0)%Z = false ->
  (0 <= stock_or_zero stock)%Z.
Proof.
  destruct stock as [n|]; cbn; [|lia].
  intros H. apply andb_false_iff in H as [H | H].
  - apply negb_false_iff, Z.eqb_eq in H. lia.
  - apply Z.ltb_ge in H. exact H.
Qed.

Lemma product_mutate_cases (input : ProductInput.t) (st : Store) :
  CreateProduct.mutate input st =
    if float_le_zero (ProductInput.price input)
    then (Ok (product_failure "price" "['Price must be positive']"), st)
    else if stock_truthy (ProductInput.stock input)
            && (stock_or_zero (ProductInput.stock input) <? 0)%Z
    then (Ok (product_failure "stock" "['Stock cannot be negative']"), st)
    else (Ok (CreateProduct.make (Some (new_product input st)) None (Some true)),
          with_product (new_product input st) st).
Proof.
  unfold CreateProduct.mutate, try_except, CreateProduct.body, bind, raise_if.
  destruct (float_le_zero (ProductInput.price input)) eqn:Hp;
    [apply product_handler_price|].
  cbn [ret].
  destruct (stock_truthy _ && _) eqn:Hs; [apply product_handler_stock|].
  cbn [ret]. unfold Product_full_clean. cbn [product_price product_stock].
  replace (coefficient (ProductInput.price input) <=? 0)%Z with false
    by (symmetry; apply Z.leb_gt, float_le_zero_positive, Hp).
  replace (stock_or_zero (ProductInput.stock input) <? 0)%Z with false
    by (symmetry; apply Z.ltb_ge, stock_accepted, Hs).
  reflexivity.
Qed.

(** X12: on a price that is a finite decimal, [createProduct] never
    raises and has three outcomes.  A price
    whose [float] is zero or less fails under [price]; otherwise a stock
    below zero fails under [stock]; otherwise the product is stored under
    the next key with the price of the input and its stock, 0 when none
    is given.  A failure leaves the store as it was. *)
Theorem create_product_outcomes (input : ProductInput.t) (st : Store) :
  (float_le_zero (ProductInput.price input) = true
   /\ CreateProduct.mutate input st
      = (Ok (product_failure "price" "['Price must be positive']"), st))
  \/ (float_le_zero (ProductInput.price input) = false
      /\ (stock_or_zero (ProductInput.stock input) < 0)%Z
      /\ CreateProduct.mutate input st
         = (Ok (product_failure "stock" "['Stock cannot be negative']"), st))
  \/ (float_le_zero (ProductInput.price input) = false
      /\ (0 <= stock_or_zero (ProductInput.stock input))%Z
      /\ exists p,
           CreateProduct.mutate input st
           = (Ok (CreateProduct.make (Some p) None (Some true)), with_product p st)
           /\ product_pk p = Some (S (product_seq st))
           /\ product_name p = ProductInput.name input
           /\ product_price p = ProductInput.price input
           /\ product_stock p = stock_or_zero (ProductInput.stock input)).
Proof.
  rewrite product_mutate_cases.
  destruct (float_le_zero (ProductInput.price input)); [left; auto|].
  destruct (stock_truthy _ && _) eqn:Hs.
  - right. left. apply andb_true_iff in Hs as [_ Hs]. apply Z.ltb_lt in Hs. auto.
  - right. right. split; [reflexivity|]. split; [apply stock_accepted, Hs|].
    exists (new_product input st). repeat split.
Qed.

(** X13: a product that was created is found under its key, as printed,
    and listed after the products that were there; the ids that resolved
    before resolve to the same products. *)
Theorem create_product_then_find (input : ProductInput.t) (st : Store)
        (p : Product) (st' : Store) :
  keys_ok product_pk (product_seq st) (products st) ->
  CreateProduct.mutate input st
  = (Ok (CreateProduct.make (Some p) None (Some true)), st') ->
  find_product st' (Py.str_of_nat (S (product_seq st))) = Some p
  /\ Query.resolve_products st' = (Query.resolve_products st ++ [p])%list
  /\ (forall id p0, find_product st id = Some p0 -> find_product st' id = Some p0).
Proof.
  intros Hk Hm. rewrite product_mutate_cases in Hm.
  destruct (float_le_zero (ProductInput.price input)); [discriminate Hm|].
  destruct (stock_truthy _ && _); [discriminate Hm|].
  injection Hm as <- <-. unfold find_product, Query.resolve_products.
  cbn [products with_product]. split; [|split; [reflexivity|]].
  - rewrite find_app, (find_key_none product_pk _ _ Hk).
    cbn [find new_product product_pk]. rewrite pk_matches_printed. reflexivity.
  - intros id p0 H. rewrite find_app, H. reflexivity.
Qed.

Lemma with_product_ok (input : ProductInput.t) (st : Store) :
  store_ok st ->
  float_le_zero (ProductInput.price input) = false ->
  (0 <= stock_or_zero (ProductInput.stock input))%Z ->
  store_ok (with_product (new_product input st) st).
Proof.
  intros (Hc & Hp & Ho & He & Hpo & Hoo) Hprice Hstock.
  repeat split; try (apply Hc); try (apply Ho); try assumption.
  - apply (keys_ok_app product_pk _ _ _ Hp). reflexivity.
  - apply (keys_ok_app product_pk _ _ _ Hp). reflexivity.
  - cbn [products with_product]. apply Forall_app. split; [exact Hpo|].
    constructor; [|constructor]. split; cbn; [apply float_le_zero_positive, Hprice | exact Hstock].
  - cbn [orders with_product]. eapply Forall_impl; [|exact Hoo].
    intros o. apply (order_ok_more st _ [] [new_product input st]);
      cbn; [rewrite app_nil_r; reflexivity | reflexivity].
Qed.

(** X14: [createProduct] keeps a store in order; the product it stores
    has a price above zero and a stock of at least zero, and the totals
    of the stored orders stay the sums of their products' prices. *)
Theorem create_product_keeps_store (input : ProductInput.t) (st : Store) :
  store_ok st ->
  store_ok (snd (CreateProduct.mutate input st)).
Proof.
  intros H. rewrite product_mutate_cases.
  destruct (float_le_zero (ProductInput.price input)) eqn:Hp; [exact H|].
  destruct (stock_truthy _ && _) eqn:Hs; [exact H|].
  apply with_product_ok; [exact H | exact Hp | apply stock_accepted, Hs].
Qed.

(** ** CreateOrder on a store in order *)

Lemma update_order_fresh (o : Order) (st : Store) :
  order_pk o = Some (S (order_seq st)) ->
  keys_ok order_pk (order_seq st) (orders st) ->
  forall r, In r (orders st) -> same_order (order_pk o) r = false.
Proof.
  intros Ho Hk r Hin. rewrite Ho. unfold same_order.
  destruct (order_pk r) as [m|] eqn:E; [|reflexivity].
  apply Nat.eqb_neq. intros <-. apply (keys_ok_fresh order_pk _ _ Hk r Hin E).
Qed.

Lemma map_unchanged {A : Type} (f : A -> A) (l : list A) :
  (forall x, In x l -> f x = x) -> map f l = l.
Proof.
  induction l as [|x l IH]; intros H; [reflexivity|].
  cbn. rewrite H by (left; reflexivity). f_equal. apply IH. intros y Hy. apply H. right. exact Hy.
Qed.

(** With the keys of the orders in order, a successful call adds its
    order at the end and touches no other row. *)
Lemma mutate_appends_order (input : OrderInput.t) (st : Store) (c : Customer)
      (ps : list Product) :
  keys_ok order_pk (order_seq st) (orders st) ->
  find_customer st (OrderInput.customer_id input) = Some c ->
  CreateOrder.get_products (OrderInput.product_ids input) [] st = (Ok ps, st) ->
  ps <> [] ->
  CreateOrder.mutate input st
  = (Ok (CreateOrder.make (Some (placed_order c ps st)) None (Some true)),
     with_order (placed_order c ps st) st).
Proof.
  intros Hk Hc Hps Hne. rewrite mutate_as_body.
  unfold atomic, try_except, CreateOrder.body, CreateOrder.body_with, bind.
  rewrite get_customer_cases, Hc, Hps.
  destruct ps as [|p ps]; [contradiction|].
  unfold raise_if, ret, model_writes, writes_create, writes_set, writes_save,
    Order_objects_create, Order_products_set, Order_save.
  cbn [order_pk order_customer order_products order_total_amount].
  f_equal. unfold update_order, with_order.
  cbn [orders customers products customer_seq product_seq order_seq order_pk].
  f_equal. rewrite !map_app.
  repeat (cbn [map same_order order_pk]; rewrite ?Nat.eqb_refl).
  rewrite map_map. f_equal.
  apply map_unchanged. intros r Hin.
  pose proof (update_order_fresh (placed_order c (p :: ps) st) st eq_refl Hk r Hin) as Hf.
  cbn [placed_order order_pk] in Hf. unfold same_order in Hf.
  rewrite Hf, Hf. reflexivity.
Qed.

(** The outcomes of a call on a store whose order keys are in order. *)
Lemma mutate_outcomes_in_order (input : OrderInput.t) (st : Store) :
  keys_ok order_pk (order_seq st) (orders st) ->
  (exists field message,
     CreateOrder.mutate input st = (Ok (order_failure field message), st))
  \/ (exists c ps,
        find_customer st (OrderInput.customer_id input) = Some c
        /\ Forall2 (fun id p => find_product st id = Some p)
                   (OrderInput.product_ids input) ps
        /\ ps <> []
        /\ CreateOrder.mutate input st
           = (Ok (CreateOrder.make (Some (placed_order c ps st)) None (Some true)),
              with_order (placed_order c ps st) st)).
Proof.
  intros Hk.
  destruct (find_customer st (OrderInput.customer_id input)) as [c|] eqn:Hc.
  - destruct (resolve_or_missing st (OrderInput.product_ids input))
      as [Hall | (pre & p & post & Hids & Hpre & Hp)].
    + destruct (OrderInput.product_ids input) as [|id ids] eqn:Hids.
      * left. do 2 eexists. apply (mutate_no_product input st c Hc Hids).
      * right. rewrite <- Hids in Hall.
        destruct (get_products_resolved _ [] st Hall) as (ps & Hps & F).
        cbn [app] in Hps. rewrite Hids in F.
        assert (Hne : ps <> []) by (intros ->; inversion F).
        exists c, ps. split; [reflexivity|]. split; [exact F|]. split; [exact Hne|].
        apply mutate_appends_order; assumption.
    + left. do 2 eexists. apply (mutate_product_unresolved input st c pre p post Hc Hids Hpre Hp).
  - left. do 2 eexists. apply (mutate_customer_unresolved input st Hc).
Qed.

(** X15: on a store whose order keys are in order, a successful
    [createOrder] adds one order, under the next key and after the orders
    that were there, and changes nothing else: the other orders, the
    customers and the products are as before.  The order's customer is
    the key the input's id denotes, as [int] reads it. *)
Theorem create_order_appends (input : OrderInput.t) (st : Store)
        (r : CreateOrder.t) (st' : Store) :
  keys_ok order_pk (order_seq st) (orders st) ->
  CreateOrder.mutate input st = (Ok r, st') ->
  CreateOrder.success r = Some true ->
  exists o n,
    CreateOrder.order r = Some o
    /\ st' = with_order o st
    /\ Query.resolve_orders st' = (Query.resolve_orders st ++ [o])%list
    /\ order_pk o = Some (S (order_seq st))
    /\ order_customer o = Some n
    /\ PyInt.int (OrderInput.customer_id input) = Some (Z.of_nat n).
Proof.
  intros Hk Hm Hs.
  destruct (mutate_outcomes_in_order input st Hk)
    as [(field & message & H) | (c & ps & Hc & F & Hne & H)];
    rewrite H in Hm; injection Hm as <- <-; [discriminate Hs|].
  apply find_customer_key in Hc as (_ & n & Hn & Hid).
  exists (placed_order c ps st), n. repeat split; assumption.
Qed.

(** The order of a successful call is well formed. *)
Lemma placed_order_ok (st : Store) (cid : string) (c : Customer)
      (ids : list string) (ps : list Product) :
  find_customer st cid = Some c ->
  Forall2 (fun id p => find_product st id = Some p) ids ps ->
  ps <> [] ->
  order_ok st (placed_order c ps st).
Proof.
  intros Hc F Hne.
  unfold order_ok, placed_order. cbn [order_products order_customer order_total_amount].
  split; [|split; [apply NoDup_nodup | split; [apply (linked_keys_stored st ids ps F)|]]].
  - destruct F as [|id p ids ps Hf F]; [contradiction|].
    apply find_product_key in Hf as (_ & n & Hn & _).
    intros E. assert (Hin : In n (nodup Nat.eq_dec (product_keys (p :: ps)))).
    { apply nodup_In, in_product_keys. exists p. split; [left; reflexivity | exact Hn]. }
    rewrite E in Hin. contradiction.
  - split; [|reflexivity].
    apply find_customer_key in Hc as (Hin & n & Hn & _). exists c, n. auto.
Qed.

Lemma order_total_sound_products (st st' : Store) (o : Order) :
  products st' = products st -> order_total_sound st o -> order_total_sound st' o.
Proof.
  intros Hp (linked & Hk & Hin & Ht). exists linked. rewrite Hp. auto.
Qed.

(** The total of the order of a successful call is the sum over the rows
    it is linked to. *)
Lemma placed_order_total_sound (st : Store) (c : Customer)
      (ids : list string) (ps : list Product) :
  Forall2 (fun id p => find_product st id = Some p) ids ps ->
  order_total_sound st (placed_order c ps st).
Proof.
  intros F. exists (products_under st (nodup Nat.eq_dec (product_keys ps))).
  unfold placed_order. cbn [order_products order_total_amount].
  split; [apply products_under_keys, (linked_keys_stored st ids ps F)|].
  split; [apply products_under_stored|].
  rewrite linked_prices_under. reflexivity.
Qed.

(** X16: [createOrder], with the modelled writes, keeps a store in order.
    The order it stores has at least one product, each linked once and
    stored, a stored customer, and a total that is the sum of the prices
    of the stored rows it is linked to; the orders that were there keep
    these properties; and a call that does not succeed leaves the store as
    it was. *)
Theorem create_order_keeps_store (input : OrderInput.t) (st : Store) :
  store_sound st ->
  store_sound (snd (CreateOrder.mutate input st))
  /\ (forall r st',
        CreateOrder.mutate input st = (Ok r, st') ->
        CreateOrder.success r <> Some true ->
        st' = st).
Proof.
  intros [H Ht]. pose proof H as (Hc & Hp & Ho & He & Hpo & Hoo).
  destruct (mutate_outcomes_in_order input st Ho)
    as [(field & message & Hm) | (c & ps & Hcust & F & Hne & Hm)]; rewrite Hm.
  - split; [split; assumption|]. intros r st' E _. injection E as _ <-. reflexivity.
  - split; [|intros r st' E Hs; injection E as <- _; exfalso; apply Hs; reflexivity].
    cbn [snd]. split.
    + repeat split; try (apply Hc); try (apply Hp); try assumption.
      * apply (keys_ok_app order_pk _ _ _ Ho). reflexivity.
      * apply (keys_ok_app order_pk _ _ _ Ho). reflexivity.
      * cbn [orders with_order]. apply Forall_app. split.
        -- eapply Forall_impl; [|exact Hoo]. intros o Hok. exact Hok.
        -- constructor; [|constructor].
           apply (placed_order_ok st (OrderInput.customer_id input) c
                    (OrderInput.product_ids input) ps); assumption.
    + cbn [orders with_order]. apply Forall_app. split.
      * eapply Forall_impl; [|exact Ht]. intros o.
        apply order_total_sound_products. reflexivity.
      * constructor; [|constructor].
        apply (order_total_sound_products st); [reflexivity|].
        apply (placed_order_total_sound st c (OrderInput.product_ids input) ps F).
Qed.
(** ** The ids of an order as a set *)

Lemma Qsum_permutation (l l' : list Q) :
  Permutation l l' -> Qeq (Qsum l) (Qsum l').
Proof.
  induction 1 as [| x l l' _ IH | x y l | l l' l'' _ IH1 _ IH2];
    cbn [Qsum fold_right].
  - reflexivity.
  - fold (Qsum l). fold (Qsum l'). rewrite IH. reflexivity.
  - ring.
  - rewrite IH1. exact IH2.
Qed.

Lemma resolved_ids (st : Store) (ids : list string) (ps : list Product) :
  Forall2 (fun id p => find_product st id = Some p) ids ps ->
  forall id, In id ids -> resolves st id.
Proof.
  induction 1 as [|id p ids ps Hf F IH]; intros x Hin; [contradiction|].
  destruct Hin as [<- | Hin]; [unfold resolves; rewrite Hf; discriminate | apply IH, Hin].
Qed.

(** X17: the order and the total depend on the product ids as a set.  If
    a call succeeds, the call with the same customer and a list of ids
    with the same members, in any order, with any repetition and with any
    [orderDate], succeeds too, links the same products and has a total of
    the same value. *)
Theorem create_order_ids_as_set (input1 input2 : OrderInput.t) (st : Store)
        (r1 : CreateOrder.t) (st1 : Store) :
  OrderInput.customer_id input1 = OrderInput.customer_id input2 ->
  (forall id, In id (OrderInput.product_ids input1)
              <-> In id (OrderInput.product_ids input2)) ->
  CreateOrder.mutate input1 st = (Ok r1, st1) ->
  CreateOrder.success r1 = Some true ->
  exists o1 o2 st2,
    CreateOrder.order r1 = Some o1
    /\ CreateOrder.mutate input2 st
       = (Ok (CreateOrder.make (Some o2) None (Some true)), st2)
    /\ order_customer o1 = order_customer o2
    /\ Permutation (order_products o1) (order_products o2)
    /\ Qeq (Decimal_value (order_total_amount o1)) (Decimal_value (order_total_amount o2)).
Proof.
  intros Hcid Hids Hm Hs.
  destruct (mutate_outcomes input1 st)
    as [(field & message & H) | (c & ps1 & st1' & Hc & F1 & H & _)];
    rewrite H in Hm; injection Hm as <- <-; [discriminate Hs|].
  assert (Hne1 : OrderInput.product_ids input1 <> []).
  { intros E. rewrite (mutate_no_product input1 st c Hc E) in H. discriminate H. }
  assert (Hne2 : OrderInput.product_ids input2 <> []).
  { destruct (OrderInput.product_ids input1) as [|x l] eqn:E1; [contradiction|].
    intros E2. rewrite E2 in Hids. apply (proj1 (Hids x)). left. reflexivity. }
  assert (Hall2 : Forall (resolves st) (OrderInput.product_ids input2)).
  { apply Forall_forall. intros id Hin. apply (resolved_ids st _ ps1 F1), Hids, Hin. }
  rewrite Hcid in Hc.
  destruct (mutate_places_order input2 st c Hc Hne2 Hall2) as (ps2 & st2 & F2 & H2 & _).
  exists (placed_order c ps1 st), (placed_order c ps2 st), st2.
  split; [reflexivity|]. split; [exact H2|]. split; [reflexivity|].
  assert (P : Permutation (nodup Nat.eq_dec (product_keys ps1))
                          (nodup Nat.eq_dec (product_keys ps2))).
  { apply NoDup_Permutation; [apply NoDup_nodup | apply NoDup_nodup |].
    intros n. rewrite (linked_keys st _ ps1 F1 n), (linked_keys st _ ps2 F2 n).
    split; intros (id & Hin & Hi); exists id; (split; [apply Hids; exact Hin | exact Hi]). }
  split; [exact P|].
  cbn [placed_order order_total_amount]. rewrite !Decimal_sum_value.
  apply Qsum_permutation, Permutation_map. unfold linked_prices.
  apply Permutation_flat_map, P.
Qed.

(** ** Instances of the further properties *)

Lemma shop_ok : store_ok shop.
Proof.
  unfold store_ok, keys_ok, shop. cbn [customers products orders customer_seq product_seq
                                      order_seq map].
  repeat split;
    repeat (first [ apply Forall_nil
                  | apply Forall_cons
                  | apply NoDup_nil
                  | apply NoDup_cons ]);
    cbn; try (eexists; split; [reflexivity | lia]); try lia; try tauto;
    try (intros [E | E]; discriminate E || contradiction);
    try (unfold product_ok; cbn; lia).
Defined.

(** X2 at a phone with dashes. *)
Lemma phone_regex_length_witness :
  Re.rmatch phone_regex "123-456-7890" = true
  /\ (10 <= String.length "123-456-7890" <= 14)%nat.
Proof.
  split; [reflexivity|]. apply (phone_regex_length "123-456-7890"). reflexivity.
Defined.

(** X4 at a customer with no phone. *)
Lemma create_customer_without_phone_witness :
  exists c st',
    CreateCustomer.mutate EmailGrammar.dot_atom_host
                          (CustomerInput.make "Erin" "erin@example.com" None) shop
    = (Ok (CreateCustomer.make (Some c) None (Some true)), st')
    /\ customer_phone c = EmptyString
    /\ customer_email c = "erin@example.com"
    /\ In c (Query.resolve_customers st').
Proof.
  apply (create_customer_without_phone EmailGrammar.dot_atom_host
           "Erin" "erin@example.com" None shop).
  - left. reflexivity.
  - reflexivity.
  - reflexivity.
Defined.

(** X5 at Carol on the shop. *)
Lemma create_customer_then_find_witness :
  find_customer (with_customer (new_customer carol shop) shop) "2"
  = Some (new_customer carol shop)
  /\ Query.resolve_customers (with_customer (new_customer carol shop) shop)
     = (Query.resolve_customers shop ++ [new_customer carol shop])%list
  /\ (forall id c0, find_customer shop id = Some c0 ->
                    find_customer (with_customer (new_customer carol shop) shop) id
                    = Some c0).
Proof.
  apply (create_customer_then_find EmailGrammar.dot_atom_host carol shop).
  - apply shop_ok.
  - reflexivity.
Defined.

(** X6 at Carol on the shop. *)
Lemma create_customer_keeps_store_witness :
  store_ok (snd (CreateCustomer.mutate EmailGrammar.dot_atom_host carol shop)).
Proof.
  apply (create_customer_keeps_store EmailGrammar.dot_atom_host carol shop), shop_ok.
Defined.

(** X7 at a batch whose last row has a phone of five digits. *)
Lemma bulk_create_refused_row_witness :
  existsb (refused EmailGrammar.dot_atom_host)
          [Some alice; Some carol; Some dave_bad_phone] = true
  /\ BulkCreateCustomers.mutate EmailGrammar.dot_atom_host
                                [Some alice; Some carol; Some dave_bad_phone] empty_store
     = (Raise no_error_dict, empty_store).
Proof.
  split; [reflexivity|].
  apply (bulk_create_refused_row EmailGrammar.dot_atom_host
           [Some alice; Some carol; Some dave_bad_phone] empty_store).
  reflexivity.
Defined.


(** X9 at a batch with Alice twice: she is stored once. *)
Lemma bulk_create_first_occurrence_witness :
  exists r st',
    BulkCreateCustomers.mutate EmailGrammar.dot_atom_host
                               [Some alice; Some alice; Some carol] empty_store
    = (Ok r, st')
    /\ map customer_email (BulkCreateCustomers.customers r)
       = ["alice@example.com"; "carol@example.com"].
Proof.
  eexists. eexists. split; [reflexivity|].
  eapply (bulk_create_first_occurrence EmailGrammar.dot_atom_host
            [Some alice; Some alice; Some carol] empty_store).
  reflexivity.
Defined.

(** X10 at the same batch. *)
Lemma bulk_create_as_single_calls_witness :
  exists r st',
    BulkCreateCustomers.mutate EmailGrammar.dot_atom_host
                               [Some alice; Some alice; Some carol] empty_store
    = (Ok r, st')
    /\ st' = fold_left
               (fun s input => snd (CreateCustomer.mutate EmailGrammar.dot_atom_host input s))
               [alice; alice; carol] empty_store.
Proof.
  eexists. eexists. split; [reflexivity|].
  eapply (bulk_create_as_single_calls EmailGrammar.dot_atom_host
           [Some alice; Some alice; Some carol] empty_store).
  reflexivity.
Defined.

(** X11 at a batch on the shop. *)
Lemma bulk_create_keeps_store_witness :
  store_ok (snd (BulkCreateCustomers.mutate EmailGrammar.dot_atom_host
                                            [Some alice; None; Some carol] shop)).
Proof.
  apply (bulk_create_keeps_store EmailGrammar.dot_atom_host
           [Some alice; None; Some carol] shop), shop_ok.
Defined.

(** X13 at a product of 3.20 on the shop. *)
Lemma create_product_then_find_witness :
  exists p st',
    CreateProduct.mutate (ProductInput.make "Cable" (mkDecimal 320 (-2)) None) shop
    = (Ok (CreateProduct.make (Some p) None (Some true)), st')
    /\ find_product st' "3" = Some p
    /\ Query.resolve_products st' = (Query.resolve_products shop ++ [p])%list
    /\ (forall id p0, find_product shop id = Some p0 -> find_product st' id = Some p0).
Proof.
  eexists. eexists. split; [reflexivity|].
  eapply (create_product_then_find
           (ProductInput.make "Cable" (mkDecimal 320 (-2)) None) shop).
  - apply shop_ok.
  - reflexivity.
Defined.

(** X14 at the same product. *)
Lemma create_product_keeps_store_witness :
  store_ok (snd (CreateProduct.mutate
                   (ProductInput.make "Cable" (mkDecimal 320 (-2)) None) shop)).
Proof.
  apply (create_product_keeps_store
           (ProductInput.make "Cable" (mkDecimal 320 (-2)) None) shop), shop_ok.
Defined.

(** X15 at an order of both products of the shop. *)
Lemma create_order_appends_witness :
  exists r st',
    CreateOrder.mutate (OrderInput.make "1" ["1"; "2"] None) shop = (Ok r, st')
    /\ exists o n,
         CreateOrder.order r = Some o
         /\ st' = with_order o shop
         /\ Query.resolve_orders st' = (Query.resolve_orders shop ++ [o])%list
         /\ order_pk o = Some 1
         /\ order_customer o = Some n
         /\ PyInt.int "1" = Some (Z.of_nat n).
Proof.
  eexists. eexists. split; [reflexivity|].
  eapply (create_order_appends (OrderInput.make "1" ["1"; "2"] None) shop).
  - apply shop_ok.
  - reflexivity.
  - reflexivity.
Defined.

Lemma shop_sound : store_sound shop.
Proof. split; [exact shop_ok | constructor]. Defined.

(** X16 at the same order. *)
Lemma create_order_keeps_store_witness :
  store_sound (snd (CreateOrder.mutate (OrderInput.make "1" ["1"; "2"] None) shop))
  /\ (forall r st',
        CreateOrder.mutate (OrderInput.make "1" ["1"; "2"] None) shop = (Ok r, st') ->
        CreateOrder.success r <> Some true ->
        st' = shop).
Proof.
  apply (create_order_keeps_store (OrderInput.make "1" ["1"; "2"] None) shop), shop_sound.
Defined.

(** X17 at the ids 1, 2 against 2, 1, 2 with a date. *)
Lemma create_order_ids_as_set_witness :
  exists r1 st1,
    CreateOrder.mutate (OrderInput.make "1" ["1"; "2"] None) shop = (Ok r1, st1)
    /\ exists o1 o2 st2,
         CreateOrder.order r1 = Some o1
         /\ CreateOrder.mutate (OrderInput.make "1" ["2"; "1"; "2"] (Some "2025-01-01")) shop
            = (Ok (CreateOrder.make (Some o2) None (Some true)), st2)
         /\ order_customer o1 = order_customer o2
         /\ Permutation (order_products o1) (order_products o2)
         /\ Qeq (Decimal_value (order_total_amount o1))
                (Decimal_value (order_total_amount o2)).
Proof.
  eexists. eexists. split; [reflexivity|].
  eapply (create_order_ids_as_set (OrderInput.make "1" ["1"; "2"] None)
           (OrderInput.make "1" ["2"; "1"; "2"] (Some "2025-01-01")) shop).
  - reflexivity.
  - intros id. cbn. tauto.
  - reflexivity.
  - reflexivity.
Defined.

